(** * VoiceConfirm backend: the order-confirmation call orchestrator

    A shallow embedding of [app/services/call_service.py],
    [app/services/order_service.py], the collaborators they call
    ([elevenlabs_service.py], [twilio_service.py]), the pydantic models of
    [app/models] and the routes of [app/api/calls/routes.py] and
    [app/api/orders/routes.py] that the statements need.

    Conventions of the embedding:
    - a MongoDB collection is the list of its documents in natural order;
      [find_one] returns the first match and [update_one] rewrites the first
      match; [insert_one] refuses a duplicate [_id] (the unique index every
      collection has);
    - an operation takes the database and returns the new database next to
      its result (explicit state passing); a raised [HTTPException] is the
      [Raise] result, and the writes made before it are kept, as in the
      source, which has no transaction;
    - every reading of [datetime.utcnow()], every generated identifier and
      every answer of a remote provider is an input of the operation;
    - what an invocation asks of the remote providers is returned as a list
      of effects;
    - a Python [int] is an integer; a [float] that is only stored and
      printed (a price, a total, a confidence) is its rational value, and a
      [float] that is computed (the rates and averages of the statistics) is
      an IEEE 754 binary64 number; the operations of Python that are not part
      of this repository ([int] on a string, [bson.ObjectId] on a string,
      [str] on a float, [/] on two integers, [*] on a float and an integer,
      [round] on a float) are variables of the section that holds the
      services, so the theorems hold for every behaviour of them, and their
      behaviour in CPython is given next to them for the examples. *)

From Stdlib Require Import QArith Qround Ascii String.
From Stdlib Require SpecFloat.
From stdpp Require Import base strings gmap list sorting pretty.

#[local] Close Scope Q_scope.
#[local] Open Scope Z_scope.
#[local] Open Scope string_scope.
#[local] Open Scope list_scope.

(** ** Values shared by the models *)

(** [datetime]: an instant, as a count of microseconds. *)
Definition datetime : Type := Z.

(** [bson.ObjectId]: the 12-byte identifier, as a number. *)
Definition ObjectId : Type := N.
Bind Scope N_scope with ObjectId.

(** [bytes]. *)
Definition bytes : Type := list Byte.byte.

(** A [float] that is computed: an IEEE 754 binary64 number, as a sign, a
    mantissa and an exponent, an infinity or a NaN. *)
Definition float : Type := SpecFloat.spec_float.

(** The float [0.0]. *)
Definition float_zero : float := SpecFloat.S754_zero false.

(** The values that occur in provider payloads ([Dict[str, Any]]). *)
Inductive value : Type :=
| VBool (b : bool)
| VStr (s : string).

#[global] Instance value_eq_dec : EqDecision value.
Proof. solve_decision. Defined.

#[global] Instance Q_eq_dec : EqDecision Q.
Proof. solve_decision. Defined.

(** [fastapi.HTTPException(status_code, detail)]. *)
Record HTTPException : Type := mkHTTPException {
  status_code : Z;
  detail : string
}.

(** The result of a coroutine that may raise an [HTTPException]. *)
Inductive result (A : Type) : Type :=
| Return (a : A)
| Raise (e : HTTPException).

Arguments Return {A} a.
Arguments Raise {A} e.

(** ** Python built-ins *)

Module Py.

(** Truth value of an [Optional[str]]: [None] and the empty string are false. *)
Definition truthy_str (s : option string) : bool :=
  match s with
  | Some (String _ _) => true
  | _ => false
  end.

(** Truth value of an [Optional[bytes]]. *)
Definition truthy_bytes (b : option bytes) : bool :=
  match b with
  | Some (_ :: _) => true
  | _ => false
  end.

(** Truth value of [d.get(k)] for a payload dictionary. *)
Definition truthy_value (v : option value) : bool :=
  match v with
  | Some (VBool b) => b
  | Some (VStr (String _ _)) => true
  | _ => false
  end.

(** [s or d] on an [Optional[str]]. *)
Definition str_or (s : option string) (d : string) : string :=
  match s with
  | Some (String a r) => String a r
  | _ => d
  end.

(** [sep.join(l)]. *)
Fixpoint join (sep : string) (l : list string) : string :=
  match l with
  | [] => ""
  | [s] => s
  | s :: r => s +:+ sep +:+ join sep r
  end.

(** [s.startswith(p)]. *)
Definition startswith (p s : string) : bool := String.prefix p s.

(** [s[:n]]. *)
Definition slice_to (n : nat) (s : string) : string := String.substring 0 n s.

(** [s[n:]]. *)
Definition slice_from (n : nat) (s : string) : string :=
  String.substring n (String.length s - n) s.

End Py.

(** ** app/models/user.py *)

Module User.

(** [UserInDB]; the fields the services read are [id] and [role]. The
    subscription, settings, password hash and timestamps are never read by
    the modelled operations and are left out. *)
Record UserInDB : Type := mkUser {
  id : ObjectId;
  email : string;
  name : string;
  role : string;
  is_active : bool
}.

End User.

(** ** app/models/order.py *)

Module OrderCustomer.
Record t : Type := mk {
  name : string;
  phone : string;
  email : option string;
  address : option (gmap string value)
}.
End OrderCustomer.

Module OrderItem.
Record t : Type := mk {
  name : string;
  quantity : Z;
  price : Q;
  sku : option string;
  image_url : option string
}.
End OrderItem.

Module OrderDetails.
Record t : Type := mk {
  items : list OrderItem.t;
  total : Q;
  currency : string;
  order_date : datetime;
  shipping_address : option (gmap string value);
  billing_address : option (gmap string value)
}.
End OrderDetails.

(** [OrderInDB]: a document of the [orders] collection. *)
Module Order.
Record OrderInDB : Type := mk {
  _id : ObjectId;
  user_id : ObjectId;
  order_id : string;
  customer : OrderCustomer.t;
  order_details : OrderDetails.t;
  confirmation_status : string;
  call_attempts : Z;
  max_call_attempts : Z;
  priority : string;
  notes : option string;
  metadata : option (gmap string value);
  created_at : datetime;
  updated_at : datetime;
  last_call_date : option datetime;
  confirmed_at : option datetime
}.
End Order.

(** [OrderUpdate]: every field optional; [None] is a field that was not set
    ([dict(exclude_unset=True)] leaves it out). *)
Module OrderUpdate.
Record t : Type := mk {
  confirmation_status : option string;
  call_attempts : option Z;
  priority : option string;
  notes : option string;
  last_call_date : option datetime
}.
End OrderUpdate.

(** [OrderCreate]: the fields of [OrderBase] and the owner. *)
Module OrderCreate.
Record t : Type := mk {
  order_id : string;
  customer : OrderCustomer.t;
  order_details : OrderDetails.t;
  confirmation_status : string;
  call_attempts : Z;
  max_call_attempts : Z;
  priority : string;
  notes : option string;
  metadata : option (gmap string value);
  user_id : ObjectId
}.
End OrderCreate.

(** [OrderStats]. *)
Module OrderStats.
Record t : Type := mk {
  total_orders : Z;
  pending_orders : Z;
  confirmed_orders : Z;
  failed_orders : Z;
  cancelled_orders : Z;
  confirmation_rate : float;
  average_call_attempts : float
}.
End OrderStats.

(** ** app/models/call.py *)

(** [CallCreate] (the fields of [CallBase]). *)
Module CallCreate.
Record t : Type := mk {
  call_id : string;
  order_id : ObjectId;
  user_id : ObjectId;
  status : string;
  call_type : string;
  language : string;
  voice_id : option string;
  duration : option Z;
  transcript : option string;
  audio_url : option string;
  outcome : option string;
  customer_response : option string;
  ai_confidence : option Q;
  retry_count : Z;
  scheduled_at : option datetime;
  metadata : option (gmap string value)
}.
End CallCreate.

(** [CallInDB]: a document of the [call_logs] collection. *)
Module Call.
Record CallInDB : Type := mk {
  _id : ObjectId;
  call_id : string;
  order_id : ObjectId;
  user_id : ObjectId;
  status : string;
  call_type : string;
  language : string;
  voice_id : option string;
  duration : option Z;
  transcript : option string;
  audio_url : option string;
  outcome : option string;
  customer_response : option string;
  ai_confidence : option Q;
  retry_count : Z;
  scheduled_at : option datetime;
  metadata : option (gmap string value);
  created_at : datetime;
  updated_at : datetime;
  started_at : option datetime;
  ended_at : option datetime
}.
End Call.

#[global] Instance CallInDB_eq_dec : EqDecision Call.CallInDB.
Proof. solve_decision. Defined.

(** [CallUpdate]: the model declares these eight fields and no [Config], so
    pydantic ignores any other keyword given to its constructor. [None] is a
    field that was not set. *)
Module CallUpdate.
Record t : Type := mk {
  status : option string;
  duration : option Z;
  transcript : option string;
  audio_url : option string;
  outcome : option string;
  customer_response : option string;
  ai_confidence : option Q;
  retry_count : option Z
}.
End CallUpdate.

(** [CallStats]. *)
Module CallStats.
Record t : Type := mk {
  total_calls : Z;
  successful_calls : Z;
  failed_calls : Z;
  average_duration : float;
  success_rate : float;
  total_duration : Z;
  calls_by_outcome : gmap string Z;
  calls_by_language : gmap string Z
}.
End CallStats.

(** [CallFilters]. *)
Module CallFilters.
Record t : Type := mk {
  status : option string;
  outcome : option string;
  language : option string;
  date_from : option datetime;
  date_to : option datetime;
  order_id : option string
}.
End CallFilters.

(** ** The MongoDB collections *)

Module Mongo.

Section Collection.
Context {D : Type}.

(** [collection.find_one(q)]: the first document that satisfies the filter. *)
Fixpoint find_one (q : D -> bool) (c : list D) : option D :=
  match c with
  | [] => None
  | d :: c' => if q d then Some d else find_one q c'
  end.

(** [collection.update_one(q, u)]: the first document that satisfies the
    filter is rewritten by the update; no match, no change. *)
Fixpoint update_one (q : D -> bool) (u : D -> D) (c : list D) : list D :=
  match c with
  | [] => []
  | d :: c' => if q d then u d :: c' else d :: update_one q u c'
  end.

(** [result.modified_count] of that [update_one]: 1 when a document matched
    and the update changed it, else 0. *)
Definition modified_count `{EqDecision D} (q : D -> bool) (u : D -> D) (c : list D) : Z :=
  match find_one q c with
  | Some d => if decide (u d = d) then 0 else 1
  | None => 0
  end.

(** [collection.insert_one(d)]: appends the document; [None] is the
    [DuplicateKeyError] of the unique index on [_id]. *)
Definition insert_one (key : D -> ObjectId) (d : D) (c : list D) : option (list D) :=
  if existsb (fun d' => N.eqb (key d') (key d)) c then None else Some (c ++ [d]).

(** [collection.delete_one(q)]: the first document that satisfies the filter
    is removed. *)
Fixpoint delete_one (q : D -> bool) (c : list D) : list D :=
  match c with
  | [] => []
  | d :: c' => if q d then c' else d :: delete_one q c'
  end.

(** [result.deleted_count] of that [delete_one]. *)
Definition deleted_count (q : D -> bool) (c : list D) : Z :=
  match find_one q c with
  | Some _ => 1
  | None => 0
  end.

End Collection.

End Mongo.

(** The database: the two collections the call and order services use. *)
Record Database : Type := mkDatabase {
  orders : list Order.OrderInDB;
  call_logs : list Call.CallInDB
}.

(** The [$set] document of an update of [call_logs]; [None] is a key the
    document does not have. These are the keys that occur in the source. *)
Module CallSet.
Record t : Type := mk {
  status : option string;
  duration : option Z;
  transcript : option string;
  audio_url : option string;
  outcome : option string;
  customer_response : option string;
  ai_confidence : option Q;
  retry_count : option Z;
  metadata : option (gmap string value);
  updated_at : option datetime;
  ended_at : option datetime
}.

(** A key of [$set] on a field that may be null. *)
Definition over {A : Type} (new old : option A) : option A :=
  match new with
  | Some v => Some v
  | None => old
  end.

(** [{"$set": u}] applied to a document. *)
Definition apply (u : t) (d : Call.CallInDB) : Call.CallInDB :=
  {| Call._id := Call._id d;
     Call.call_id := Call.call_id d;
     Call.order_id := Call.order_id d;
     Call.user_id := Call.user_id d;
     Call.status := default (Call.status d) (status u);
     Call.call_type := Call.call_type d;
     Call.language := Call.language d;
     Call.voice_id := Call.voice_id d;
     Call.duration := over (duration u) (Call.duration d);
     Call.transcript := over (transcript u) (Call.transcript d);
     Call.audio_url := over (audio_url u) (Call.audio_url d);
     Call.outcome := over (outcome u) (Call.outcome d);
     Call.customer_response := over (customer_response u) (Call.customer_response d);
     Call.ai_confidence := over (ai_confidence u) (Call.ai_confidence d);
     Call.retry_count := default (Call.retry_count d) (retry_count u);
     Call.scheduled_at := Call.scheduled_at d;
     Call.metadata := over (metadata u) (Call.metadata d);
     Call.created_at := Call.created_at d;
     Call.updated_at := default (Call.updated_at d) (updated_at u);
     Call.started_at := Call.started_at d;
     Call.ended_at := over (ended_at u) (Call.ended_at d) |}.
End CallSet.

(** The update documents of [orders] that occur in the source: [$set] on the
    keys below and [$inc] of [call_attempts]. *)
Module OrderSet.
Record t : Type := mk {
  confirmation_status : option string;
  call_attempts : option Z;
  priority : option string;
  notes : option string;
  last_call_date : option datetime;
  updated_at : option datetime;
  confirmed_at : option datetime
}.

(** [{"$inc": {"call_attempts": n}, "$set": u}] applied to a document. *)
Definition apply (inc : Z) (u : t) (o : Order.OrderInDB) : Order.OrderInDB :=
  {| Order._id := Order._id o;
     Order.user_id := Order.user_id o;
     Order.order_id := Order.order_id o;
     Order.customer := Order.customer o;
     Order.order_details := Order.order_details o;
     Order.confirmation_status :=
       default (Order.confirmation_status o) (confirmation_status u);
     Order.call_attempts := default (Order.call_attempts o) (call_attempts u) + inc;
     Order.max_call_attempts := Order.max_call_attempts o;
     Order.priority := default (Order.priority o) (priority u);
     Order.notes := CallSet.over (notes u) (Order.notes o);
     Order.metadata := Order.metadata o;
     Order.created_at := Order.created_at o;
     Order.updated_at := default (Order.updated_at o) (updated_at u);
     Order.last_call_date := CallSet.over (last_call_date u) (Order.last_call_date o);
     Order.confirmed_at := CallSet.over (confirmed_at u) (Order.confirmed_at o) |}.
End OrderSet.

(** ** app/core/config.py: the settings the two providers read *)
Record Settings : Type := mkSettings {
  elevenlabs_api_key : option string;
  twilio_account_sid : option string;
  twilio_auth_token : option string;
  twilio_whatsapp_number : option string
}.

(** What an invocation asks of the remote providers, in order. *)
Inductive Effect : Type :=
| TextToSpeech (voice_id text : string)
| VoiceCall (to call_sid : string).

(** What one invocation of [initiate_order_confirmation_call] reads from its
    environment: the readings of the clock in program order, the generated
    identifiers and the answer of the voice provider. *)
Record InitiateEnv : Type := mkInitiateEnv {
  now_scheduled_at : datetime;
  uuid4 : string;
  inserted_id : ObjectId;
  now_created_at : datetime;
  now_created_updated_at : datetime;
  http_text_to_speech : string -> string -> option bytes;
  now_started_at : datetime;
  now_updated_at : datetime;
  now_ended_at : datetime;
  now_last_call_date : datetime
}.

(** ** Reference behaviour of the library functions

    The services take [int], [ObjectId], [str] and [round] as parameters; the
    functions below give their behaviour on the inputs the examples use. *)

Module Lib.

(** The value of a decimal digit. *)
Definition digit_of (a : ascii) : option Z :=
  let n := Z.of_N (N_of_ascii a) in
  if (48 <=? n)%Z && (n <=? 57)%Z then Some (n - 48) else None.

(** The number a run of decimal digits writes, after [acc]. *)
Fixpoint digits_of (s : string) (acc : Z) : option Z :=
  match s with
  | EmptyString => Some acc
  | String a r =>
    match digit_of a with
    | Some d => digits_of r (10 * acc + d)
    | None => None
    end
  end.

(** [int(s)] on an optionally signed run of ASCII digits; any other string
    is refused here. *)
Definition int_of_ascii (s : string) : option Z :=
  match s with
  | EmptyString => None
  | String "-" (String a r) => Z.opp <$> digits_of (String a r) 0
  | String "+" (String a r) => digits_of (String a r) 0
  | _ => digits_of s 0
  end.

(** The value of a hexadecimal digit, in either case. *)
Definition hex_of (a : ascii) : option N :=
  let n := N_of_ascii a in
  if (48 <=? n)%N && (n <=? 57)%N then Some (n - 48)%N
  else if (97 <=? n)%N && (n <=? 102)%N then Some (n - 87)%N
  else if (65 <=? n)%N && (n <=? 70)%N then Some (n - 55)%N
  else None.

(** The number a run of hexadecimal digits writes, after [acc]. *)
Fixpoint hex_digits (s : string) (acc : N) : option N :=
  match s with
  | EmptyString => Some acc
  | String a r =>
    match hex_of a with
    | Some d => hex_digits r (16 * acc + d)%N
    | None => None
    end
  end.

(** [ObjectId(s)] on a string: 24 hexadecimal digits, or [InvalidId]. *)
Definition ObjectId_of_hex (s : string) : option ObjectId :=
  if Nat.eqb (String.length s) 24 then hex_digits s 0 else None.

(** [str(x)] on a float whose value is a whole number. *)
Definition str_of_whole (x : Q) : string := pretty (Qfloor x) +:+ ".0".

(** Rounding to the nearest integer, ties to even. *)
Definition round_half_even (x : Q) : Z :=
  let f := Qfloor x in
  match Qcompare (x - inject_Z f) (1 # 2) with
  | Lt => f
  | Gt => f + 1
  | Eq => if Z.even f then f else f + 1
  end.

(** An integer as an operand of a float operation: its exact value, with
    a mantissa of any length. *)
Definition int_operand (z : Z) : float :=
  match z with
  | Z0 => SpecFloat.S754_zero false
  | Zpos p => SpecFloat.S754_finite false p 0
  | Zneg p => SpecFloat.S754_finite true p 0
  end.

(** [a / b] on two [int]s in CPython: the binary64 number nearest to the
    quotient, ties to even. A quotient too large for a float, which CPython
    refuses with an [OverflowError], is the infinity here; the integers of
    the statistics are counts and sums of stored 64-bit integers, whose
    quotients are far below it. *)
Definition int_truediv (a b : Z) : float :=
  SpecFloat.SFdiv 53 1024 (int_operand a) (int_operand b).

(** [float(n)] on an [int]: the binary64 number nearest to it. *)
Definition float_of_int (n : Z) : float :=
  SpecFloat.binary_normalize 53 1024 n 0 false.

(** [x * n] on a [float] and an [int] in CPython: the integer is converted
    and the product rounded to the nearest binary64 number. *)
Definition float_mul_int (x : float) (n : Z) : float :=
  SpecFloat.SFmul 53 1024 x (float_of_int n).

(** The value of a finite float. *)
Definition Q_of_finite (s : bool) (m : positive) (e : Z) : Q :=
  let v :=
    match e with
    | Zneg p => Qmake (Z.pos m) (Pos.pow 2 p)
    | _ => inject_Z (Z.pos m * 2 ^ e)%Z
    end in
  if s then Qopp v else v.

(** [round(x, 2)] on a [float] in CPython: the value of [x] is rounded to
    two decimals, ties to even, and the result is the binary64 number
    nearest to that decimal, with the sign of [x]; an infinity and a NaN are
    returned as they are. *)
Definition round2 (x : float) : float :=
  match x with
  | SpecFloat.S754_finite s m e =>
    match round_half_even (Q_of_finite s m e * 100)%Q with
    | Z0 => SpecFloat.S754_zero s
    | n => int_truediv n 100
    end
  | _ => x
  end.

(** [str(e)] on an [HTTPException], as Starlette renders it: the status
    code and the detail. *)
Definition str_of_http (e : HTTPException) : string :=
  pretty (status_code e) +:+ ": " +:+ detail e.

End Lib.

(** ** Sample data for the examples *)

Module Sample.

(** Both providers configured. *)
Definition configured : Settings :=
  {| elevenlabs_api_key := Some "xi-key";
     twilio_account_sid := Some "AC0001";
     twilio_auth_token := Some "token";
     twilio_whatsapp_number := None |}.

(** A user that is not an admin. *)
Definition merchant : User.UserInDB :=
  {| User.id := 7; User.email := "shop@example.com"; User.name := "Shop";
     User.role := "user"; User.is_active := true |}.

(** The merchant's order, of one item and a budget of three attempts. *)
Definition order_with (status : string) (attempts : Z) : Order.OrderInDB :=
  {| Order._id := 1;
     Order.user_id := 7;
     Order.order_id := "A-100";
     Order.customer :=
       {| OrderCustomer.name := "Ann"; OrderCustomer.phone := "+15550001";
          OrderCustomer.email := None; OrderCustomer.address := None |};
     Order.order_details :=
       {| OrderDetails.items :=
            [ {| OrderItem.name := "Mug"; OrderItem.quantity := 2; OrderItem.price := 4 # 1;
                 OrderItem.sku := None; OrderItem.image_url := None |} ];
          OrderDetails.total := 8 # 1;
          OrderDetails.currency := "USD";
          OrderDetails.order_date := 1000;
          OrderDetails.shipping_address := None;
          OrderDetails.billing_address := None |};
     Order.confirmation_status := status;
     Order.call_attempts := attempts;
     Order.max_call_attempts := 3;
     Order.priority := "normal";
     Order.notes := None;
     Order.metadata := None;
     Order.created_at := 1000;
     Order.updated_at := 1000;
     Order.last_call_date := None;
     Order.confirmed_at := None |}.

(** The 24 hexadecimal digits of the order's [_id]. *)
Definition order_hex : string := "000000000000000000000001".

(** A call record of that order. *)
Definition call_with (oid : ObjectId) (call_id status : string) (duration : option Z)
    : Call.CallInDB :=
  {| Call._id := oid;
     Call.call_id := call_id;
     Call.order_id := 1;
     Call.user_id := 7;
     Call.status := status;
     Call.call_type := "confirmation";
     Call.language := "en";
     Call.voice_id := Some "21m00Tcm4TlvDq8ikWAM";
     Call.duration := duration;
     Call.transcript := None;
     Call.audio_url := None;
     Call.outcome := None;
     Call.customer_response := None;
     Call.ai_confidence := None;
     Call.retry_count := 0;
     Call.scheduled_at := Some 2000;
     Call.metadata := None;
     Call.created_at := 2000;
     Call.updated_at := 2000;
     Call.started_at := None;
     Call.ended_at := None |}.

(** One pending order, no call yet. *)
Definition db_pending : Database :=
  {| orders := [order_with "pending" 0]; call_logs := [] |}.


(** One pending order and a call in progress for it. *)
Definition db_in_progress : Database :=
  {| orders := [order_with "pending" 1];
     call_logs := [call_with 50 "call-1" "in_progress" None] |}.

(** Two finished calls: one completed in ten seconds, one failed with no
    duration. *)
Definition db_two_calls : Database :=
  {| orders := [order_with "pending" 2];
     call_logs := [call_with 50 "call-1" "completed" (Some 10);
                   call_with 51 "call-2" "failed" None] |}.

(** A delivery event for the call in progress: completed after 15 seconds. *)
Definition completed_event : gmap string string :=
  {[ "CallSid" := "call-1"; "CallStatus" := "completed"; "CallDuration" := "15" ]}.

(** A delivery event for the call in progress: the line was busy. *)
Definition busy_event : gmap string string :=
  {[ "CallSid" := "call-1"; "CallStatus" := "busy"; "CallDuration" := "0" ]}.

(** A delivery event whose call identifier no record carries. *)
Definition unknown_event : gmap string string :=
  {[ "CallSid" := "CA-unknown"; "CallStatus" := "completed"; "CallDuration" := "42" ]}.

(** The update [{"confirmation_status": "confirmed"}] of an order. *)
Definition confirm_update : OrderUpdate.t :=
  {| OrderUpdate.confirmation_status := Some "confirmed";
     OrderUpdate.call_attempts := None;
     OrderUpdate.priority := None;
     OrderUpdate.notes := None;
     OrderUpdate.last_call_date := None |}.


(** What [datetime.utcnow] and the providers give an invocation whose voice
    provider answers [audio] to every request. *)
Definition env_with (i : ObjectId) (audio : option bytes) : InitiateEnv :=
  {| now_scheduled_at := 3000;
     uuid4 := "123e4567-e89b-12d3-a456-426614174000";
     inserted_id := i;
     now_created_at := 3001;
     now_created_updated_at := 3002;
     http_text_to_speech := fun _ _ => audio;
     now_started_at := 3003;
     now_updated_at := 3004;
     now_ended_at := 3005;
     now_last_call_date := 3006 |}.

(** The voice provider has no key; the telephony provider is configured. *)
Definition no_voice_key : Settings :=
  {| elevenlabs_api_key := None;
     twilio_account_sid := Some "AC0001";
     twilio_auth_token := Some "token";
     twilio_whatsapp_number := None |}.

(** One pending order with one attempt left. *)
Definition db_last_attempt : Database :=
  {| orders := [order_with "pending" 2]; call_logs := [] |}.

(** A call in progress whose call id is a uuid4 string. *)
Definition db_uuid_call : Database :=
  {| orders := [order_with "pending" 1];
     call_logs :=
       [call_with 50 "123e4567-e89b-12d3-a456-426614174000" "in_progress" None] |}.

(** The delivery event for the identifier the dispatcher reported for that
    call. *)
Definition reported_sid_event : gmap string string :=
  {[ "CallSid" := "CA123e4567-e89b-12d3-a456-42661417";
     "CallStatus" := "completed"; "CallDuration" := "15" ]}.

(** A confirmed order and its completed call. *)
Definition db_confirmed : Database :=
  {| orders := [order_with "confirmed" 1];
     call_logs := [call_with 50 "call-1" "completed" (Some 15)] |}.

(** An order of another user. *)
Definition foreign_order : Order.OrderInDB :=
  {| Order._id := 2;
     Order.user_id := 8;
     Order.order_id := "B-7";
     Order.customer := Order.customer (order_with "pending" 0);
     Order.order_details := Order.order_details (order_with "pending" 0);
     Order.confirmation_status := "pending";
     Order.call_attempts := 0;
     Order.max_call_attempts := 3;
     Order.priority := "normal";
     Order.notes := None;
     Order.metadata := None;
     Order.created_at := 1500;
     Order.updated_at := 1500;
     Order.last_call_date := None;
     Order.confirmed_at := None |}.

(** The merchant's order and the order of the other user. *)
Definition db_two_users : Database :=
  {| orders := [order_with "pending" 0; foreign_order]; call_logs := [] |}.

(** The 24 hexadecimal digits of the [_id] 2. *)
Definition second_hex : string := "000000000000000000000002".

(** The merchant's call number [i]. *)
Definition numbered_call (status : string) (duration : option Z) (i : nat)
    : Call.CallInDB :=
  call_with (N.of_nat i) ("call-" +:+ pretty i) status duration.

(** 160 calls of the merchant: 23 completed in 100 seconds each and 137
    failed with no duration. *)
Definition db_many_calls : Database :=
  {| orders := [order_with "pending" 0];
     call_logs :=
       (numbered_call "completed" (Some 100) <$> seq 0 23)
       ++ (numbered_call "failed" None <$> seq 23 137) |}.

(** The merchant's order number [i]. *)
Definition numbered_order (status : string) (attempts : Z) (i : nat)
    : Order.OrderInDB :=
  {| Order._id := N.of_nat i;
     Order.user_id := 7;
     Order.order_id := "A-" +:+ pretty i;
     Order.customer := Order.customer (order_with status attempts);
     Order.order_details := Order.order_details (order_with status attempts);
     Order.confirmation_status := status;
     Order.call_attempts := attempts;
     Order.max_call_attempts := 100;
     Order.priority := "normal";
     Order.notes := None;
     Order.metadata := None;
     Order.created_at := 1000;
     Order.updated_at := 1000;
     Order.last_call_date := None;
     Order.confirmed_at := None |}.

(** 160 orders of the merchant: 23 confirmed after 100 attempts each and 137
    pending with no attempt. *)
Definition db_many_orders : Database :=
  {| orders :=
       (numbered_order "confirmed" 100 <$> seq 0 23)
       ++ (numbered_order "pending" 0 <$> seq 23 137);
     call_logs := [] |}.

(** The payload of a new order as a client sends it; it names another
    owner. *)
Definition new_order (order_id : string) : OrderCreate.t :=
  {| OrderCreate.order_id := order_id;
     OrderCreate.customer := Order.customer (order_with "pending" 0);
     OrderCreate.order_details := Order.order_details (order_with "pending" 0);
     OrderCreate.confirmation_status := "pending";
     OrderCreate.call_attempts := 0;
     OrderCreate.max_call_attempts := 3;
     OrderCreate.priority := "normal";
     OrderCreate.notes := None;
     OrderCreate.metadata := None;
     OrderCreate.user_id := 99 |}.

End Sample.

(** ** The services *)

Section Services.

Set Default Proof Using "Type".

(** [int(s)] on a string: [None] is the [ValueError]. *)
Variable int_of_str : string -> option Z.

(** [bson.ObjectId(s)] on a string: [None] is the [InvalidId] error. *)
Variable ObjectId_of_str : string -> option ObjectId.

(** [str(x)] on a float, as [str.format] renders it. *)
Variable str_of_float : Q -> string.

(** [a / b] on two [int]s, [b] not zero: a float. *)
Variable int_truediv : Z -> Z -> float.

(** [x * n] on a [float] and an [int]. *)
Variable float_mul_int : float -> Z -> float.

(** [round(x, 2)] on a float. *)
Variable round2 : float -> float.

Variable settings : Settings.

(** [str(e)] on an [HTTPException]. *)
Variable str_of_exception : HTTPException -> string.

(** Drops the parameters a statement does not mention, so that decision
    procedures do not pick them up. *)
Ltac unused :=
  try clear int_of_str; try clear ObjectId_of_str; try clear str_of_float;
  try clear int_truediv; try clear float_mul_int;
  try clear round2; try clear settings; try clear str_of_exception.

(** *** app/services/elevenlabs_service.py *)

(** The greetings of [localize_script]. *)
Definition language_greetings : gmap string string :=
  list_to_map
    [("en", "Hello"); ("es", "Hola"); ("fr", "Bonjour"); ("de", "Hallo");
     ("it", "Ciao"); ("pt", "Olá"); ("ru", "Привет"); ("zh", "你好");
     ("ja", "こんにちは"); ("ko", "안녕하세요"); ("ar", "مرحبا");
     ("hi", "नमस्ते"); ("ur", "السلام علیکم")].

(** [localize_script]: [script.replace("Hello", greeting, 1)] on a script
    that starts with [Hello] rewrites that prefix. *)
Definition localize_script (script language : string) : string :=
  let greeting := default "Hello" (language_greetings !! language) in
  if Py.startswith "Hello" script
  then greeting +:+ Py.slice_from 5 script
  else script.

(** [text_to_speech]: [http] is the answer of the provider to the request
    for a voice and a text ([None]: the request raised). *)
Definition text_to_speech (http : string -> string -> option bytes)
    (text voice_id : string) : option bytes * list Effect :=
  if negb (Py.truthy_str (elevenlabs_api_key settings))
  then (None, [])
  else (http voice_id text, [TextToSpeech voice_id text]).

(** [create_conversation_audio]: the localized script, spoken. *)
Definition create_conversation_audio (http : string -> string -> option bytes)
    (script voice_id language : string) : option bytes * list Effect :=
  let localized_script := localize_script script language in
  text_to_speech http localized_script voice_id.

(** The line feed of the script template. *)
Definition nl : string := String "010"%char "".

(** [generate_confirmation_script]: the template filled with the customer's
    name, the order id, the total, the currency and the first three items,
    in stored order, with the count of the others. *)
Definition generate_confirmation_script (customer_name order_id : string)
    (order_total : Q) (currency : string) (items : list OrderItem.t)
    (language : string) : string :=
  let items_text :=
    match items with
    | [] => ""
    | _ =>
      let items_list :=
        map (fun item => pretty (OrderItem.quantity item) +:+ " " +:+ OrderItem.name item)
            (take 3 items) in
      let t := "including " +:+ Py.join ", " items_list in
      if (3 <? Z.of_nat (length items))%Z
      then t +:+ " and " +:+ pretty (Z.of_nat (length items) - 3) +:+ " more items"
      else t
    end in
  "Hello " +:+ customer_name
  +:+ ", this is a call from VoiceConfirm regarding your recent order #"
  +:+ order_id +:+ ". " +:+ nl +:+ nl
  +:+ "I'm calling to confirm your order totaling " +:+ str_of_float order_total
  +:+ " " +:+ currency +:+ " " +:+ items_text +:+ ". " +:+ nl +:+ nl
  +:+ "Could you please confirm that you placed this order and that all the details are correct? "
  +:+ nl +:+ nl
  +:+ "If you confirm this order, please say 'yes' or 'confirm'. If there are any issues or you need to cancel, please say 'no' or 'cancel'."
  +:+ nl +:+ nl
  +:+ "Thank you for your time.".

(** *** app/services/twilio_service.py *)

(** [self.client]: set when both credentials are configured. *)
Definition twilio_client : bool :=
  Py.truthy_str (twilio_account_sid settings) && Py.truthy_str (twilio_auth_token settings).

(** [make_voice_call]: the source simulates the call when the client is
    configured and answers a failure when it is not. *)
Definition make_voice_call (phone_number : string) (audio_data : bytes)
    (call_id : string) : gmap string value * list Effect :=
  if negb twilio_client
  then ({[ "success" := VBool false; "error" := VStr "Twilio not configured" ]}, [])
  else
    let call_sid := "CA" +:+ Py.slice_to 32 call_id in
    ({[ "success" := VBool true;
        "call_sid" := VStr call_sid;
        "status" := VStr "initiated";
        "to" := VStr phone_number;
        "from" := VStr (Py.str_or (twilio_whatsapp_number settings) "+1234567890") ]},
     [VoiceCall phone_number call_sid]).

(** *** app/services/call_service.py *)

(** The [CallInDB] made of [call_dict]: the document [create_call] inserts and
    returns.
    [uuid4] is the generated call id, [inserted_id] the [_id] MongoDB gives
    the document, [now_created] and [now_updated] the two readings of the
    clock. *)
Definition call_document (uuid4 : string) (inserted_id : ObjectId)
    (now_created now_updated : datetime) (call_data : CallCreate.t) : Call.CallInDB :=
  {| Call._id := inserted_id;
     Call.call_id := uuid4;
     Call.order_id := CallCreate.order_id call_data;
     Call.user_id := CallCreate.user_id call_data;
     Call.status := CallCreate.status call_data;
     Call.call_type := CallCreate.call_type call_data;
     Call.language := CallCreate.language call_data;
     Call.voice_id := CallCreate.voice_id call_data;
     Call.duration := CallCreate.duration call_data;
     Call.transcript := CallCreate.transcript call_data;
     Call.audio_url := CallCreate.audio_url call_data;
     Call.outcome := CallCreate.outcome call_data;
     Call.customer_response := CallCreate.customer_response call_data;
     Call.ai_confidence := CallCreate.ai_confidence call_data;
     Call.retry_count := CallCreate.retry_count call_data;
     Call.scheduled_at := CallCreate.scheduled_at call_data;
     Call.metadata := CallCreate.metadata call_data;
     Call.created_at := now_created;
     Call.updated_at := now_updated;
     Call.started_at := None;
     Call.ended_at := None |}.

(** [create_call]: a failed insertion is the 500 of its handler. *)
Definition create_call (uuid4 : string) (inserted_id : ObjectId)
    (now_created now_updated : datetime) (call_data : CallCreate.t)
    (db : Database) : result Call.CallInDB * Database :=
  let call_doc := call_document uuid4 inserted_id now_created now_updated call_data in
  match Mongo.insert_one Call._id call_doc (call_logs db) with
  | Some logs => (Return call_doc, {| orders := orders db; call_logs := logs |})
  | None => (Raise (mkHTTPException 500 "Failed to create call record"), db)
  end.

(** [call_update.dict(exclude_unset=True)] as a [$set] document. *)
Definition CallUpdate_dict (u : CallUpdate.t) : CallSet.t :=
  {| CallSet.status := CallUpdate.status u;
     CallSet.duration := CallUpdate.duration u;
     CallSet.transcript := CallUpdate.transcript u;
     CallSet.audio_url := CallUpdate.audio_url u;
     CallSet.outcome := CallUpdate.outcome u;
     CallSet.customer_response := CallUpdate.customer_response u;
     CallSet.ai_confidence := CallUpdate.ai_confidence u;
     CallSet.retry_count := CallUpdate.retry_count u;
     CallSet.metadata := None;
     CallSet.updated_at := None;
     CallSet.ended_at := None |}.

(** [update_data["updated_at"] = t]. *)
Definition with_updated_at (t : datetime) (u : CallSet.t) : CallSet.t :=
  {| CallSet.status := CallSet.status u;
     CallSet.duration := CallSet.duration u;
     CallSet.transcript := CallSet.transcript u;
     CallSet.audio_url := CallSet.audio_url u;
     CallSet.outcome := CallSet.outcome u;
     CallSet.customer_response := CallSet.customer_response u;
     CallSet.ai_confidence := CallSet.ai_confidence u;
     CallSet.retry_count := CallSet.retry_count u;
     CallSet.metadata := CallSet.metadata u;
     CallSet.updated_at := Some t;
     CallSet.ended_at := CallSet.ended_at u |}.

(** [update_data["ended_at"] = t]. *)
Definition with_ended_at (t : datetime) (u : CallSet.t) : CallSet.t :=
  {| CallSet.status := CallSet.status u;
     CallSet.duration := CallSet.duration u;
     CallSet.transcript := CallSet.transcript u;
     CallSet.audio_url := CallSet.audio_url u;
     CallSet.outcome := CallSet.outcome u;
     CallSet.customer_response := CallSet.customer_response u;
     CallSet.ai_confidence := CallSet.ai_confidence u;
     CallSet.retry_count := CallSet.retry_count u;
     CallSet.metadata := CallSet.metadata u;
     CallSet.updated_at := CallSet.updated_at u;
     CallSet.ended_at := Some t |}.

(** The [$set] document [update_call] builds: the fields that were set,
    [updated_at], and [ended_at] when the new status is [completed]. *)
Definition update_call_data (now_updated now_ended : datetime)
    (call_update : CallUpdate.t) : CallSet.t :=
  let update_data := with_updated_at now_updated (CallUpdate_dict call_update) in
  match CallSet.status update_data with
  | Some s => if String.eqb s "completed" then with_ended_at now_ended update_data else update_data
  | None => update_data
  end.

(** [update_call]: its only caller passes the [ObjectId] of a record, so
    [ObjectId(call_id)] is the identity. *)
Definition update_call (now_updated now_ended : datetime) (call_id : ObjectId)
    (call_update : CallUpdate.t) (db : Database) : option Call.CallInDB * Database :=
  let update_data := update_call_data now_updated now_ended call_update in
  let q := fun d => N.eqb (Call._id d) call_id in
  let db' := {| orders := orders db;
                call_logs := Mongo.update_one q (CallSet.apply update_data) (call_logs db) |} in
  if (Mongo.modified_count q (CallSet.apply update_data) (call_logs db) =? 0)%Z
  then (None, db')
  else (Mongo.find_one q (call_logs db'), db').

(** [CallUpdate(status=..., outcome=...)] of the synthesis-failure path. *)
Definition CallUpdate_audio_failed : CallUpdate.t :=
  {| CallUpdate.status := Some "failed";
     CallUpdate.duration := None;
     CallUpdate.transcript := None;
     CallUpdate.audio_url := None;
     CallUpdate.outcome := Some "audio_generation_failed";
     CallUpdate.customer_response := None;
     CallUpdate.ai_confidence := None;
     CallUpdate.retry_count := None |}.

(** [CallUpdate(status=..., started_at=..., transcript=..., metadata=...)] of
    the dispatch path. [started_at] and [metadata] are not fields of
    [CallUpdate] and the model sets no [extra] policy, so the constructor
    ignores them: the object holds [status] and [transcript] only. *)
Definition CallUpdate_dispatched (status : string) (started_at : datetime)
    (transcript : string) (metadata : gmap string value) : CallUpdate.t :=
  {| CallUpdate.status := Some status;
     CallUpdate.duration := None;
     CallUpdate.transcript := Some transcript;
     CallUpdate.audio_url := None;
     CallUpdate.outcome := None;
     CallUpdate.customer_response := None;
     CallUpdate.ai_confidence := None;
     CallUpdate.retry_count := None |}.

(** The filter [{"_id": ObjectId(order_id), "user_id": user.id}]. *)
Definition owned_order (oid : ObjectId) (user : User.UserInDB) (o : Order.OrderInDB) : bool :=
  N.eqb (Order._id o) oid && N.eqb (Order.user_id o) (User.id user).

(** The update [{"$inc": {"call_attempts": 1}, "$set": {"last_call_date": now}}]. *)
Definition count_attempt (now : datetime) : Order.OrderInDB -> Order.OrderInDB :=
  OrderSet.apply 1
    {| OrderSet.confirmation_status := None;
       OrderSet.call_attempts := None;
       OrderSet.priority := None;
       OrderSet.notes := None;
       OrderSet.last_call_date := Some now;
       OrderSet.updated_at := None;
       OrderSet.confirmed_at := None |}.

(** The script [initiate_order_confirmation_call] asks for: the customer's
    name, the external order id, the total, the currency and the items. *)
Definition order_script (order_obj : Order.OrderInDB) (language : string) : string :=
  generate_confirmation_script
    (OrderCustomer.name (Order.customer order_obj))
    (Order.order_id order_obj)
    (OrderDetails.total (Order.order_details order_obj))
    (OrderDetails.currency (Order.order_details order_obj))
    (OrderDetails.items (Order.order_details order_obj))
    language.

(** The [CallCreate] of [initiate_order_confirmation_call]. *)
Definition new_call_data (now_scheduled : datetime) (oid : ObjectId)
    (user : User.UserInDB) (language voice_id : string) : CallCreate.t :=
  {| CallCreate.call_id := "";
     CallCreate.order_id := oid;
     CallCreate.user_id := User.id user;
     CallCreate.status := "initiated";
     CallCreate.call_type := "confirmation";
     CallCreate.language := language;
     CallCreate.voice_id := Some voice_id;
     CallCreate.duration := None;
     CallCreate.transcript := None;
     CallCreate.audio_url := None;
     CallCreate.outcome := None;
     CallCreate.customer_response := None;
     CallCreate.ai_confidence := None;
     CallCreate.retry_count := 0;
     CallCreate.scheduled_at := Some now_scheduled;
     CallCreate.metadata := None |}.

(** The default voice of [initiate_order_confirmation_call]. *)
Definition default_voice : string := "21m00Tcm4TlvDq8ikWAM".

(** [initiate_order_confirmation_call]: the result, the database after it
    and what was asked of the providers. *)
Definition initiate_order_confirmation_call (env : InitiateEnv) (order_id : string)
    (user : User.UserInDB) (language : string) (voice_id : option string)
    (db : Database) : result (option Call.CallInDB) * Database * list Effect :=
  match ObjectId_of_str order_id with
  | None =>
    (* InvalidId is no HTTPException: the last handler turns it into a 500 *)
    (Raise (mkHTTPException 500 "Failed to initiate call"), db, [])
  | Some oid =>
    match Mongo.find_one (owned_order oid user) (orders db) with
    | None => (Raise (mkHTTPException 404 "Order not found"), db, [])
    | Some order_obj =>
      if String.eqb (Order.confirmation_status order_obj) "confirmed"
      then (Raise (mkHTTPException 400 "Order already confirmed"), db, [])
      else if (Order.max_call_attempts order_obj <=? Order.call_attempts order_obj)%Z
      then (Raise (mkHTTPException 400 "Maximum call attempts reached"), db, [])
      else
        let voice_id := Py.str_or voice_id default_voice in
        let call_data := new_call_data (now_scheduled_at env) oid user language voice_id in
        match create_call (uuid4 env) (inserted_id env) (now_created_at env)
                (now_created_updated_at env) call_data db with
        | (Raise e, db1) => (Raise e, db1, [])
        | (Return call_record, db1) =>
          let script := order_script order_obj language in
          let '(audio_data, fx1) :=
            create_conversation_audio (http_text_to_speech env) script voice_id language in
          if negb (Py.truthy_bytes audio_data)
          then
            let '(_, db2) :=
              update_call (now_updated_at env) (now_ended_at env) (Call._id call_record)
                CallUpdate_audio_failed db1 in
            (Raise (mkHTTPException 500 "Failed to generate audio"), db2, fx1)
          else
            let '(call_result, fx2) :=
              make_voice_call (OrderCustomer.phone (Order.customer order_obj))
                (default [] audio_data) (Call.call_id call_record) in
            let call_update :=
              CallUpdate_dispatched
                (if Py.truthy_value (call_result !! "success") then "in_progress" else "failed")
                (now_started_at env) script call_result in
            let '(updated_call, db2) :=
              update_call (now_updated_at env) (now_ended_at env) (Call._id call_record)
                call_update db1 in
            let db3 :=
              {| orders :=
                   Mongo.update_one (fun o => N.eqb (Order._id o) oid)
                     (count_attempt (now_last_call_date env)) (orders db2);
                 call_logs := call_logs db2 |} in
            (Return updated_call, db3, fx1 ++ fx2)
        end
    end
  end.

(** The table of [process_call_webhook]. *)
Definition status_mapping : gmap string string :=
  list_to_map
    [("completed", "completed"); ("busy", "failed"); ("no-answer", "failed");
     ("failed", "failed"); ("canceled", "cancelled")].

(** [status_mapping.get(webhook_data.get("CallStatus", "unknown"), "failed")]. *)
Definition mapped_status_of (webhook_data : gmap string string) : string :=
  let status := default "unknown" (webhook_data !! "CallStatus") in
  default "failed" (status_mapping !! status).

(** [int(duration)] for [duration = webhook_data.get("CallDuration", 0)]:
    the default is the integer 0, a form value is a string. *)
Definition int_duration (duration : option string) : option Z :=
  match duration with
  | Some s => int_of_str s
  | None => Some 0
  end.

(** The outcome [process_call_webhook] derives. [int(duration)] is
    evaluated only when the mapped status is [completed] (the [and] is lazy);
    [None] is its [ValueError]. *)
Definition derive_outcome (mapped_status : string) (duration : option string)
    : option string :=
  long_call ←
    (if String.eqb mapped_status "completed"
     then d ← int_duration duration; Some (10 <? d)%Z
     else Some false);
  Some (if long_call : bool then "completed"
        else if String.eqb mapped_status "failed" then "failed"
        else "no_answer").

(** The [$set] document [process_call_webhook] builds. *)
Definition webhook_update_data (now_updated now_ended : datetime)
    (webhook_data : gmap string string) (mapped_status : string) (duration : Z)
    (outcome : string) : CallSet.t :=
  let update_data :=
    {| CallSet.status := Some mapped_status;
       CallSet.duration := Some duration;
       CallSet.transcript := None;
       CallSet.audio_url := None;
       CallSet.outcome := Some outcome;
       CallSet.customer_response := None;
       CallSet.ai_confidence := None;
       CallSet.retry_count := None;
       CallSet.metadata := Some (VStr <$> webhook_data);
       CallSet.updated_at := Some now_updated;
       CallSet.ended_at := None |} in
  if String.eqb mapped_status "completed"
  then with_ended_at now_ended update_data
  else update_data.

(** The update [{"$set": {"confirmation_status": "confirmed", "confirmed_at": now}}]. *)
Definition confirm_order (now : datetime) : Order.OrderInDB -> Order.OrderInDB :=
  OrderSet.apply 0
    {| OrderSet.confirmation_status := Some "confirmed";
       OrderSet.call_attempts := None;
       OrderSet.priority := None;
       OrderSet.notes := None;
       OrderSet.last_call_date := None;
       OrderSet.updated_at := None;
       OrderSet.confirmed_at := Some now |}.

(** [process_call_webhook]. [int(duration)] is evaluated when the outcome is
    derived and again when the update document is built, both before the
    first write; its [ValueError] is caught by the handler that returns
    [False]. *)
Definition process_call_webhook (now_updated now_ended now_confirmed : datetime)
    (call_id : string) (webhook_data : gmap string string) (db : Database)
    : bool * Database :=
  match Mongo.find_one (fun d => String.eqb (Call.call_id d) call_id) (call_logs db) with
  | None => (false, db)
  | Some call =>
    let duration := webhook_data !! "CallDuration" in
    let mapped_status := mapped_status_of webhook_data in
    match
      outcome ← derive_outcome mapped_status duration;
      d ← int_duration duration;
      Some (outcome, webhook_update_data now_updated now_ended webhook_data mapped_status d outcome)
    with
    | None => (false, db)
    | Some (outcome, update_data) =>
      let logs :=
        Mongo.update_one (fun d => String.eqb (Call.call_id d) call_id)
          (CallSet.apply update_data) (call_logs db) in
      let orders' :=
        if String.eqb outcome "completed"
        then Mongo.update_one (fun o => N.eqb (Order._id o) (Call.order_id call))
               (confirm_order now_confirmed) (orders db)
        else orders db in
      (true, {| orders := orders'; call_logs := logs |})
    end
  end.

(** The accumulators of the [$group] stage of [get_call_stats]. *)
Record GroupAcc : Type := mkGroupAcc {
  g_total_calls : Z;
  g_successful_calls : Z;
  g_failed_calls : Z;
  g_total_duration : Z;
  g_outcomes : list (option string);
  g_languages : list (option string)
}.

(** The accumulators before the first document. *)
Definition group_init : GroupAcc := mkGroupAcc 0 0 0 0 [] [].

(** One document through the accumulators: [$sum] of 1, of the two [$cond]
    and of [$duration] (a null adds nothing), and the two [$push]. *)
Definition group_step (acc : GroupAcc) (d : Call.CallInDB) : GroupAcc :=
  {| g_total_calls := g_total_calls acc + 1;
     g_successful_calls :=
       g_successful_calls acc + (if String.eqb (Call.status d) "completed" then 1 else 0);
     g_failed_calls :=
       g_failed_calls acc + (if String.eqb (Call.status d) "failed" then 1 else 0);
     g_total_duration :=
       g_total_duration acc + match Call.duration d with Some n => n | None => 0 end;
     g_outcomes := g_outcomes acc ++ [Call.outcome d];
     g_languages := g_languages acc ++ [Some (Call.language d)] |}.

(** [aggregate([{"$match": q}, {"$group": {"_id": None, ...}}])]: one group
    when a document matches, no result otherwise. *)
Definition aggregate (q : Call.CallInDB -> bool) (c : list Call.CallInDB) : option GroupAcc :=
  match List.filter q c with
  | [] => None
  | d :: m => Some (fold_left group_step (d :: m) group_init)
  end.

(** The counting loops over [outcomes] and [languages]. *)
Definition count_values (l : list (option string)) : gmap string Z :=
  fold_left
    (fun (m : gmap string Z) (v : option string) =>
       match v with
       | Some (String a r) => <[ String a r := default 0 (m !! String a r) + 1 ]> m
       | _ => m
       end)
    l ∅.

(** The filter of the call readers: an admin sees every call, another user
    the calls that carry its id. *)
Definition visible_call (user : User.UserInDB) (d : Call.CallInDB) : bool :=
  String.eqb (User.role user) "admin" || N.eqb (Call.user_id d) (User.id user).

(** The statistics [get_call_stats] returns when no call matches. *)
Definition no_call_stats : CallStats.t :=
  {| CallStats.total_calls := 0;
     CallStats.successful_calls := 0;
     CallStats.failed_calls := 0;
     CallStats.average_duration := float_zero;
     CallStats.success_rate := float_zero;
     CallStats.total_duration := 0;
     CallStats.calls_by_outcome := ∅;
     CallStats.calls_by_language := ∅ |}.

(** A number of the statistics before it is rounded: the [float] of the
    branch of the conditional that divides, or the [int] 0 of the other
    branch. *)
Inductive number : Type :=
| Float (x : float)
| Int0.

(** [round(x, 2)] as a [float] field of the result holds it: the rounded
    float; for the [int] 0, the 0 that rounding an [int] gives, which the
    field holds as [0.0]. *)
Definition round2_field (x : number) : float :=
  match x with
  | Float v => round2 v
  | Int0 => float_zero
  end.

(** [get_call_stats]: the only access to the database is the [aggregate]
    read, so the database comes back as it was given. The rate is the
    quotient of the two counts, a float, times 100; the average is the
    quotient of the sum and the count. *)
Definition get_call_stats (user : User.UserInDB) (db : Database) : CallStats.t * Database :=
  match aggregate (visible_call user) (call_logs db) with
  | Some stats =>
    let total_calls := g_total_calls stats in
    let successful_calls := g_successful_calls stats in
    let total_duration := g_total_duration stats in
    let success_rate :=
      if (0 <? total_calls)%Z
      then Float (float_mul_int (int_truediv successful_calls total_calls) 100)
      else Int0 in
    let average_duration :=
      if (0 <? total_calls)%Z
      then Float (int_truediv total_duration total_calls)
      else Int0 in
    ({| CallStats.total_calls := total_calls;
        CallStats.successful_calls := successful_calls;
        CallStats.failed_calls := g_failed_calls stats;
        CallStats.average_duration := round2_field average_duration;
        CallStats.success_rate := round2_field success_rate;
        CallStats.total_duration := total_duration;
        CallStats.calls_by_outcome := count_values (g_outcomes stats);
        CallStats.calls_by_language := count_values (g_languages stats) |}, db)
  | None => (no_call_stats, db)
  end.

(** *** app/api/calls/routes.py *)

(** [twilio_webhook]: [form_data] is the submitted form as a dictionary. *)
Definition twilio_webhook (now_updated now_ended now_confirmed : datetime)
    (form_data : gmap string string) (db : Database)
    : result (gmap string value) * Database :=
  let webhook_data := form_data in
  match webhook_data !! "CallSid" with
  | Some (String a r) =>
    let call_sid := String a r in
    let '(success, db') :=
      process_call_webhook now_updated now_ended now_confirmed call_sid webhook_data db in
    if success
    then (Return {[ "status" := VStr "success" ]}, db')
    else (Raise (mkHTTPException 400 "Failed to process webhook"), db')
  | _ => (Raise (mkHTTPException 400 "Missing CallSid in webhook data"), db)
  end.

(** *** app/services/order_service.py *)

(** The filter of [update_order]: the id, and the owner unless the user is
    an admin. *)
Definition updatable_order (oid : ObjectId) (user : User.UserInDB) (o : Order.OrderInDB) : bool :=
  N.eqb (Order._id o) oid
  && (String.eqb (User.role user) "admin" || N.eqb (Order.user_id o) (User.id user)).

(** The [$set] document [update_order] builds. *)
Definition update_order_data (now_updated now_confirmed : datetime)
    (order_update : OrderUpdate.t) : OrderSet.t :=
  {| OrderSet.confirmation_status := OrderUpdate.confirmation_status order_update;
     OrderSet.call_attempts := OrderUpdate.call_attempts order_update;
     OrderSet.priority := OrderUpdate.priority order_update;
     OrderSet.notes := OrderUpdate.notes order_update;
     OrderSet.last_call_date := OrderUpdate.last_call_date order_update;
     OrderSet.updated_at := Some now_updated;
     OrderSet.confirmed_at :=
       match OrderUpdate.confirmation_status order_update with
       | Some s => if String.eqb s "confirmed" then Some now_confirmed else None
       | None => None
       end |}.

(** [update_order]: an [InvalidId] is caught by the handler that returns
    [None]. *)
Definition update_order (now_updated now_confirmed : datetime) (order_id : string)
    (order_update : OrderUpdate.t) (user : User.UserInDB) (db : Database)
    : option Order.OrderInDB * Database :=
  match ObjectId_of_str order_id with
  | None => (None, db)
  | Some oid =>
    match Mongo.find_one (updatable_order oid user) (orders db) with
    | None => (None, db)
    | Some existing_order =>
      let update_data := update_order_data now_updated now_confirmed order_update in
      let orders' :=
        Mongo.update_one (updatable_order oid user) (OrderSet.apply 0 update_data) (orders db) in
      (Mongo.find_one (updatable_order oid user) orders',
       {| orders := orders'; call_logs := call_logs db |})
    end
  end.

(** *** app/api/orders/routes.py *)


(** *** The readers of app/services/call_service.py *)



(** A key of the query that is only present when the filter is truthy. *)
Definition matches_str (filter : option string) (field : option string) : bool :=
  match filter with
  | Some (String a r) => bool_decide (field = Some (String a r))
  | _ => true
  end.

(** The range on [created_at]: [$gte] and [$lte], each when given. *)
Definition in_dates (date_from date_to : option datetime) (t : datetime) : bool :=
  match date_from with Some f => (f <=? t)%Z | None => true end
  && match date_to with Some u => (t <=? u)%Z | None => true end.

(** The query [get_calls] builds; [None] is the [InvalidId] of
    [ObjectId(filters.order_id)]. *)
Definition calls_query (user : User.UserInDB) (filters : CallFilters.t)
    : option (Call.CallInDB -> bool) :=
  match
    match CallFilters.order_id filters with
    | Some (String a r) => (fun i => Some i) <$> ObjectId_of_str (String a r)
    | _ => Some None
    end
  with
  | None => None
  | Some order_key =>
    Some (fun d =>
      visible_call user d
      && matches_str (CallFilters.status filters) (Some (Call.status d))
      && matches_str (CallFilters.outcome filters) (Call.outcome d)
      && matches_str (CallFilters.language filters) (Some (Call.language d))
      && match order_key with Some i => N.eqb (Call.order_id d) i | None => true end
      && in_dates (CallFilters.date_from filters) (CallFilters.date_to filters)
           (Call.created_at d))
  end.

(** The order of [sort("created_at", -1)]. *)
Definition newer_first (a b : Call.CallInDB) : Prop :=
  (Call.created_at b <= Call.created_at a)%Z.

#[local] Instance newer_first_dec a b : Decision (newer_first a b).
Proof. unfold newer_first. apply _. Defined.

(** [get_calls] with the filters the route always passes and a page of
    [skip >= 0] and [limit >= 1], as the route accepts them. The sort is one
    of the orders MongoDB may give to documents created at the same instant.
    A failure of the query is the empty list. *)
Definition get_calls (user : User.UserInDB) (filters : CallFilters.t) (skip : nat)
    (limit : positive) (db : Database) : list Call.CallInDB * Database :=
  match calls_query user filters with
  | None => ([], db)
  | Some q =>
    (take (Pos.to_nat limit)
       (drop skip (merge_sort newer_first (List.filter q (call_logs db)))), db)
  end.


(** *** The rest of app/services/order_service.py *)

(** The [OrderInDB] made of [order_dict]: the document [create_order] inserts
    and returns. *)
Definition order_document (inserted_id : ObjectId) (now_created now_updated : datetime)
    (order_data : OrderCreate.t) : Order.OrderInDB :=
  {| Order._id := inserted_id;
     Order.user_id := OrderCreate.user_id order_data;
     Order.order_id := OrderCreate.order_id order_data;
     Order.customer := OrderCreate.customer order_data;
     Order.order_details := OrderCreate.order_details order_data;
     Order.confirmation_status := OrderCreate.confirmation_status order_data;
     Order.call_attempts := OrderCreate.call_attempts order_data;
     Order.max_call_attempts := OrderCreate.max_call_attempts order_data;
     Order.priority := OrderCreate.priority order_data;
     Order.notes := OrderCreate.notes order_data;
     Order.metadata := OrderCreate.metadata order_data;
     Order.created_at := now_created;
     Order.updated_at := now_updated;
     Order.last_call_date := None;
     Order.confirmed_at := None |}.

(** The filter [{"order_id": ..., "user_id": ...}] of [create_order]. *)
Definition same_order (order_data : OrderCreate.t) (o : Order.OrderInDB) : bool :=
  String.eqb (Order.order_id o) (OrderCreate.order_id order_data)
  && N.eqb (Order.user_id o) (OrderCreate.user_id order_data).

(** [create_order]: [inserted_id] is the [_id] MongoDB gives the document,
    [now_created] and [now_updated] the two readings of the clock; a failed
    insertion is the 500 of the last handler. *)
Definition create_order (inserted_id : ObjectId) (now_created now_updated : datetime)
    (order_data : OrderCreate.t) (db : Database) : result Order.OrderInDB * Database :=
  match Mongo.find_one (same_order order_data) (orders db) with
  | Some existing_order =>
    (Raise (mkHTTPException 400
              ("Order with ID " +:+ OrderCreate.order_id order_data +:+ " already exists")),
     db)
  | None =>
    let order_doc := order_document inserted_id now_created now_updated order_data in
    match Mongo.insert_one Order._id order_doc (orders db) with
    | Some orders' => (Return order_doc, {| orders := orders'; call_logs := call_logs db |})
    | None => (Raise (mkHTTPException 500 "Failed to create order"), db)
    end
  end.


(** [delete_order]. *)
Definition delete_order (order_id : string) (user : User.UserInDB) (db : Database)
    : bool * Database :=
  match ObjectId_of_str order_id with
  | None => (false, db)
  | Some oid =>
    ((0 <? Mongo.deleted_count (updatable_order oid user) (orders db))%Z,
     {| orders := Mongo.delete_one (updatable_order oid user) (orders db);
        call_logs := call_logs db |})
  end.

(** The accumulators of the [$group] stage of [get_order_stats]. *)
Record OrderGroupAcc : Type := mkOrderGroupAcc {
  og_total_orders : Z;
  og_pending_orders : Z;
  og_confirmed_orders : Z;
  og_failed_orders : Z;
  og_cancelled_orders : Z;
  og_total_call_attempts : Z
}.

(** 1 when the order has the status, else 0 (the [$cond] of the pipeline). *)
Definition has_status (status : string) (o : Order.OrderInDB) : Z :=
  if String.eqb (Order.confirmation_status o) status then 1 else 0.

(** One order through the accumulators. *)
Definition order_group_step (acc : OrderGroupAcc) (o : Order.OrderInDB) : OrderGroupAcc :=
  {| og_total_orders := og_total_orders acc + 1;
     og_pending_orders := og_pending_orders acc + has_status "pending" o;
     og_confirmed_orders := og_confirmed_orders acc + has_status "confirmed" o;
     og_failed_orders := og_failed_orders acc + has_status "failed" o;
     og_cancelled_orders := og_cancelled_orders acc + has_status "cancelled" o;
     og_total_call_attempts := og_total_call_attempts acc + Order.call_attempts o |}.

(** The filter of the order readers: an admin sees every order. *)
Definition visible_order (user : User.UserInDB) (o : Order.OrderInDB) : bool :=
  String.eqb (User.role user) "admin" || N.eqb (Order.user_id o) (User.id user).

(** The statistics [get_order_stats] returns when no order matches. *)
Definition no_order_stats : OrderStats.t :=
  {| OrderStats.total_orders := 0;
     OrderStats.pending_orders := 0;
     OrderStats.confirmed_orders := 0;
     OrderStats.failed_orders := 0;
     OrderStats.cancelled_orders := 0;
     OrderStats.confirmation_rate := float_zero;
     OrderStats.average_call_attempts := float_zero |}.

(** [get_order_stats]: one group when an order matches, the zeros
    otherwise. *)
Definition get_order_stats (user : User.UserInDB) (db : Database)
    : OrderStats.t * Database :=
  match List.filter (visible_order user) (orders db) with
  | [] => (no_order_stats, db)
  | o :: l =>
    let stats := fold_left order_group_step (o :: l) (mkOrderGroupAcc 0 0 0 0 0 0) in
    let total_orders := og_total_orders stats in
    let confirmed_orders := og_confirmed_orders stats in
    let total_call_attempts := og_total_call_attempts stats in
    let confirmation_rate :=
      if (0 <? total_orders)%Z
      then Float (float_mul_int (int_truediv confirmed_orders total_orders) 100)
      else Int0 in
    let average_call_attempts :=
      if (0 <? total_orders)%Z
      then Float (int_truediv total_call_attempts total_orders)
      else Int0 in
    ({| OrderStats.total_orders := total_orders;
        OrderStats.pending_orders := og_pending_orders stats;
        OrderStats.confirmed_orders := confirmed_orders;
        OrderStats.failed_orders := og_failed_orders stats;
        OrderStats.cancelled_orders := og_cancelled_orders stats;
        OrderStats.confirmation_rate := round2_field confirmation_rate;
        OrderStats.average_call_attempts := round2_field average_call_attempts |}, db)
  end.

(** What [create_order] reads from its environment for one order. *)
Record CreateEnv : Type := mkCreateEnv {
  order_inserted_id : ObjectId;
  order_now_created : datetime;
  order_now_updated : datetime
}.

(** The dictionary [bulk_import_orders] returns. *)
Record BulkImport : Type := mkBulkImport {
  successful_imports : Z;
  failed_imports : Z;
  errors : list string
}.

(** The loop of [bulk_import_orders]: every exception of [create_order] is
    caught, counted and reported. *)
Fixpoint bulk_import_loop (orders_data : list (OrderCreate.t * CreateEnv))
    (acc : BulkImport) (db : Database) : BulkImport * Database :=
  match orders_data with
  | [] => (acc, db)
  | (order_data, env) :: rest =>
    match create_order (order_inserted_id env) (order_now_created env)
            (order_now_updated env) order_data db with
    | (Return _, db') =>
      bulk_import_loop rest
        {| successful_imports := successful_imports acc + 1;
           failed_imports := failed_imports acc;
           errors := errors acc |} db'
    | (Raise e, db') =>
      bulk_import_loop rest
        {| successful_imports := successful_imports acc;
           failed_imports := failed_imports acc + 1;
           errors := errors acc
                     ++ ["Order " +:+ OrderCreate.order_id order_data +:+ ": "
                         +:+ str_of_exception e] |} db'
    end
  end.

(** [bulk_import_orders]: each order comes with what its [create_order]
    reads from the environment. *)
Definition bulk_import_orders (orders_data : list (OrderCreate.t * CreateEnv))
    (db : Database) : BulkImport * Database :=
  bulk_import_loop orders_data (mkBulkImport 0 0 []) db.

(** *** The rest of app/api/orders/routes.py *)

(** [order_data.user_id = current_user.id]. *)
Definition with_user_id (i : ObjectId) (order_data : OrderCreate.t) : OrderCreate.t :=
  {| OrderCreate.order_id := OrderCreate.order_id order_data;
     OrderCreate.customer := OrderCreate.customer order_data;
     OrderCreate.order_details := OrderCreate.order_details order_data;
     OrderCreate.confirmation_status := OrderCreate.confirmation_status order_data;
     OrderCreate.call_attempts := OrderCreate.call_attempts order_data;
     OrderCreate.max_call_attempts := OrderCreate.max_call_attempts order_data;
     OrderCreate.priority := OrderCreate.priority order_data;
     OrderCreate.notes := OrderCreate.notes order_data;
     OrderCreate.metadata := OrderCreate.metadata order_data;
     OrderCreate.user_id := i |}.

(** The route [POST /api/orders/]. *)
Definition route_create_order (inserted_id : ObjectId) (now_created now_updated : datetime)
    (order_data : OrderCreate.t) (current_user : User.UserInDB) (db : Database)
    : result Order.OrderInDB * Database :=
  create_order inserted_id now_created now_updated
    (with_user_id (User.id current_user) order_data) db.



(** The route [POST /api/orders/bulk-import]. *)
Definition route_bulk_import_orders (orders_data : list (OrderCreate.t * CreateEnv))
    (current_user : User.UserInDB) (db : Database) : BulkImport * Database :=
  bulk_import_orders
    (map (fun p => (with_user_id (User.id current_user) (fst p), snd p)) orders_data) db.

(** *** The rest of app/services/elevenlabs_service.py *)

(** [get_supported_languages]: the codes and names of the static list. *)
Definition get_supported_languages : list (string * string) :=
  [("en", "English"); ("es", "Spanish"); ("fr", "French"); ("de", "German");
   ("it", "Italian"); ("pt", "Portuguese"); ("ru", "Russian"); ("zh", "Chinese");
   ("ja", "Japanese"); ("ko", "Korean"); ("ar", "Arabic"); ("hi", "Hindi");
   ("ur", "Urdu"); ("nl", "Dutch"); ("pl", "Polish"); ("tr", "Turkish");
   ("sv", "Swedish"); ("no", "Norwegian"); ("da", "Danish"); ("fi", "Finnish")].

(** ** Quantities the statements use *)

(** A call record with this [_id] exists. *)
Definition call_id_taken (i : ObjectId) (db : Database) : bool :=
  existsb (fun d => N.eqb (Call._id d) i) (call_logs db).

(** The audio one invocation obtains for an order. *)
Definition synthesized_audio (env : InitiateEnv) (order_obj : Order.OrderInDB)
    (language : string) (voice_id : option string) : option bytes :=
  fst (create_conversation_audio (http_text_to_speech env)
         (order_script order_obj language) (Py.str_or voice_id default_voice) language).

(** The record [create_call] inserts for an invocation. *)
Definition initiated_record (env : InitiateEnv) (oid : ObjectId) (user : User.UserInDB)
    (language : string) (voice_id : option string) : Call.CallInDB :=
  call_document (uuid4 env) (inserted_id env) (now_created_at env)
    (now_created_updated_at env)
    (new_call_data (now_scheduled_at env) oid user language
       (Py.str_or voice_id default_voice)).

(** That record after the update of the synthesis-failure path. *)
Definition failed_record (env : InitiateEnv) (oid : ObjectId) (user : User.UserInDB)
    (language : string) (voice_id : option string) : Call.CallInDB :=
  CallSet.apply
    (update_call_data (now_updated_at env) (now_ended_at env) CallUpdate_audio_failed)
    (initiated_record env oid user language voice_id).

(** The answer of the dispatcher for an order, and what it asks of the
    telephony provider. *)
Definition dispatch_of (env : InitiateEnv) (order_obj : Order.OrderInDB)
    (language : string) (voice_id : option string) : gmap string value * list Effect :=
  make_voice_call (OrderCustomer.phone (Order.customer order_obj))
    (default [] (synthesized_audio env order_obj language voice_id)) (uuid4 env).

(** The record after the update of the dispatch path. *)
Definition dispatched_record (env : InitiateEnv) (oid : ObjectId) (user : User.UserInDB)
    (order_obj : Order.OrderInDB) (language : string) (voice_id : option string)
    : Call.CallInDB :=
  let call_result := fst (dispatch_of env order_obj language voice_id) in
  CallSet.apply
    (update_call_data (now_updated_at env) (now_ended_at env)
       (CallUpdate_dispatched
          (if Py.truthy_value (call_result !! "success") then "in_progress" else "failed")
          (now_started_at env) (order_script order_obj language) call_result))
    (initiated_record env oid user language voice_id).

(** What the invocation asks of the voice provider. *)
Definition synthesis_requests (env : InitiateEnv) (order_obj : Order.OrderInDB)
    (language : string) (voice_id : option string) : list Effect :=
  snd (create_conversation_audio (http_text_to_speech env)
         (order_script order_obj language) (Py.str_or voice_id default_voice) language).

(** The duration an event carries, as [int] reads it. *)
Definition duration_of (webhook_data : gmap string string) : option Z :=
  int_duration (webhook_data !! "CallDuration").

(** The outcome for a mapped status and a duration that was read. *)
Definition outcome_of (mapped_status : string) (duration : Z) : string :=
  if String.eqb mapped_status "completed" && (10 <? duration)%Z then "completed"
  else if String.eqb mapped_status "failed" then "failed"
  else "no_answer".

(** The number of calls with status [completed]. *)
Definition completed_calls (calls : list Call.CallInDB) : Z :=
  Z.of_nat (length (List.filter (fun d => String.eqb (Call.status d) "completed") calls)).

(** The durations that are not null. *)
Definition known_durations (calls : list Call.CallInDB) : list Z :=
  omap Call.duration calls.

(** The sum of a list of integers. *)
Definition sum_Z (l : list Z) : Z := foldr Z.add 0 l.

(** The success rate as the specification words it: completed over total. *)
Definition spec_success_rate (calls : list Call.CallInDB) : float :=
  int_truediv (completed_calls calls) (Z.of_nat (length calls)).

(** The average duration as the specification words it: the mean over the
    calls whose duration is not null. *)
Definition spec_average_duration (calls : list Call.CallInDB) : float :=
  int_truediv (sum_Z (known_durations calls)) (Z.of_nat (length (known_durations calls))).

(** How many entries of a list of values are the string [s]. *)
Definition occurrences (s : string) (l : list (option string)) : Z :=
  Z.of_nat (length (List.filter (fun v => bool_decide (v = Some s)) l)).

(** An entry of a counting dictionary: a key is present once it was counted. *)
Definition counted (n : Z) : option Z :=
  if decide (n = 0) then None else Some n.

(** The number of orders with a confirmation status. *)
Definition orders_with (status : string) (l : list Order.OrderInDB) : Z :=
  Z.of_nat (length (List.filter
                      (fun o => String.eqb (Order.confirmation_status o) status) l)).

(** The orders of the other users. *)
Definition others_orders (user : User.UserInDB) (l : list Order.OrderInDB)
    : list Order.OrderInDB :=
  List.filter (fun o => negb (N.eqb (Order.user_id o) (User.id user))) l.


(** * Facts *)

(** ** Collections *)

Section CollectionFacts.
Context {D : Type}.
Implicit Types (q : D -> bool) (u : D -> D) (c : list D) (d : D).

Lemma find_one_Some q c d :
  Mongo.find_one q c = Some d -> q d = true /\ d ∈ c.
Proof.
  induction c as [|x c IH]; simpl; [discriminate|].
  destruct (q x) eqn:Hq.
  - intros [= ->]. split; [assumption | apply list_elem_of_here].
  - intros H. destruct (IH H). split; [assumption | now apply list_elem_of_further].
Qed.

Lemma find_one_None q c :
  Mongo.find_one q c = None <-> existsb q c = false.
Proof.
  induction c as [|x c IH]; simpl; [tauto|].
  destruct (q x); simpl; [split; discriminate | exact IH].
Qed.

Lemma find_one_app q c d :
  Mongo.find_one q c = None ->
  Mongo.find_one q (c ++ [d]) = if q d then Some d else None.
Proof.
  induction c as [|x c IH]; simpl; [reflexivity|].
  destruct (q x); [discriminate | exact IH].
Qed.


Lemma update_one_app q u c d :
  Mongo.find_one q c = None -> q d = true ->
  Mongo.update_one q u (c ++ [d]) = c ++ [u d].
Proof.
  intros Hc Hd. induction c as [|x c IH]; simpl in *.
  - now rewrite Hd.
  - destruct (q x); [discriminate|]. now rewrite IH.
Qed.

(** An update that keeps the filter true leaves the first match in place. *)
Lemma find_one_update_one q u c :
  (forall d, q d = true -> q (u d) = true) ->
  Mongo.find_one q (Mongo.update_one q u c) = u <$> Mongo.find_one q c.
Proof.
  intros Hq. induction c as [|x c IH]; simpl; [reflexivity|].
  destruct (q x) eqn:Hx; simpl.
  - now rewrite (Hq _ Hx).
  - now rewrite Hx.
Qed.

(** A blind overwrite applied twice is the overwrite applied once. *)
Lemma update_one_idem q u c :
  (forall d, q d = true -> q (u d) = true) ->
  (forall d, q d = true -> u (u d) = u d) ->
  Mongo.update_one q u (Mongo.update_one q u c) = Mongo.update_one q u c.
Proof.
  intros Hq Hu. induction c as [|x c IH]; simpl; [reflexivity|].
  destruct (q x) eqn:Hx; simpl.
  - now rewrite (Hq _ Hx), (Hu _ Hx).
  - now rewrite Hx, IH.
Qed.

(** A field the update does not write reads the same along the collection. *)
Lemma fmap_update_one {B : Type} (f : D -> B) q u c :
  (forall d, f (u d) = f d) ->
  f <$> Mongo.update_one q u c = f <$> c.
Proof.
  intros Hf. induction c as [|x c IH]; [reflexivity|].
  cbn [Mongo.update_one]. destruct (q x); rewrite !fmap_cons.
  - now rewrite Hf.
  - now rewrite IH.
Qed.

Lemma modified_count_changed `{EqDecision D} q u c d :
  Mongo.find_one q c = Some d -> u d <> d -> Mongo.modified_count q u c = 1.
Proof.
  intros Hd Hu. unfold Mongo.modified_count. rewrite Hd.
  destruct (decide (u d = d)); [contradiction | reflexivity].
Qed.

End CollectionFacts.

(** ** Creating and updating a call record *)

Lemma call_id_taken_find i db :
  call_id_taken i db = false ->
  Mongo.find_one (fun d => N.eqb (Call._id d) i) (call_logs db) = None.
Proof. intros H. now apply find_one_None. Qed.

(** With an [_id] no record has, [create_call] appends the document. *)
Lemma create_call_fresh u i t1 t2 call_data db :
  call_id_taken i db = false ->
  create_call u i t1 t2 call_data db =
    (Return (call_document u i t1 t2 call_data),
     {| orders := orders db;
        call_logs := call_logs db ++ [call_document u i t1 t2 call_data] |}).
Proof.
  intros H. unfold create_call, Mongo.insert_one.
  unfold call_id_taken in H. cbn [Call._id call_document]. now rewrite H.
Qed.

(** [$set] never writes the keys of a call record. *)
Lemma apply_keeps_id u d : Call._id (CallSet.apply u d) = Call._id d.
Proof. reflexivity. Qed.

(** [update_call] on the record that was just appended. *)
Lemma update_call_last t1 t2 call_update ords logs doc :
  Mongo.find_one (fun d => N.eqb (Call._id d) (Call._id doc)) logs = None ->
  CallSet.apply (update_call_data t1 t2 call_update) doc <> doc ->
  update_call t1 t2 (Call._id doc) call_update {| orders := ords; call_logs := logs ++ [doc] |} =
    (Some (CallSet.apply (update_call_data t1 t2 call_update) doc),
     {| orders := ords;
        call_logs := logs ++ [CallSet.apply (update_call_data t1 t2 call_update) doc] |}).
Proof.
  intros Hfresh Hne. unfold update_call. cbn [call_logs orders].
  assert (Hfind : Mongo.find_one (fun d => N.eqb (Call._id d) (Call._id doc)) (logs ++ [doc])
                  = Some doc).
  { rewrite (find_one_app _ _ _ Hfresh). cbn beta. now rewrite N.eqb_refl. }
  rewrite (modified_count_changed _ _ _ _ Hfind Hne). cbn [Z.eqb].
  rewrite update_one_app by (assumption || apply N.eqb_refl).
  rewrite (find_one_app _ _ _ Hfresh). cbn beta.
  now rewrite apply_keeps_id, N.eqb_refl.
Qed.

(** ** The eligibility checks of [initiate_order_confirmation_call] *)

(** The invocation past the checks: what is left to run for an order that is
    found, not confirmed and below its budget. *)
Lemma initiate_eligible env order_id user language voice_id db oid o :
  ObjectId_of_str order_id = Some oid ->
  Mongo.find_one (owned_order oid user) (orders db) = Some o ->
  Order.confirmation_status o <> "confirmed" ->
  (Order.call_attempts o < Order.max_call_attempts o)%Z ->
  call_id_taken (inserted_id env) db = false ->
  let voice := Py.str_or voice_id default_voice in
  let rec0 :=
    call_document (uuid4 env) (inserted_id env) (now_created_at env)
      (now_created_updated_at env)
      (new_call_data (now_scheduled_at env) oid user language voice) in
  let db1 := {| orders := orders db; call_logs := call_logs db ++ [rec0] |} in
  let script := order_script o language in
  initiate_order_confirmation_call env order_id user language voice_id db =
    let '(audio_data, fx1) :=
      create_conversation_audio (http_text_to_speech env) script voice language in
    if negb (Py.truthy_bytes audio_data)
    then
      let '(_, db2) :=
        update_call (now_updated_at env) (now_ended_at env) (Call._id rec0)
          CallUpdate_audio_failed db1 in
      (Raise (mkHTTPException 500 "Failed to generate audio"), db2, fx1)
    else
      let '(call_result, fx2) :=
        make_voice_call (OrderCustomer.phone (Order.customer o))
          (default [] audio_data) (Call.call_id rec0) in
      let call_update :=
        CallUpdate_dispatched
          (if Py.truthy_value (call_result !! "success") then "in_progress" else "failed")
          (now_started_at env) script call_result in
      let '(updated_call, db2) :=
        update_call (now_updated_at env) (now_ended_at env) (Call._id rec0) call_update db1 in
      (Return updated_call,
       {| orders :=
            Mongo.update_one (fun x => N.eqb (Order._id x) oid)
              (count_attempt (now_last_call_date env)) (orders db2);
          call_logs := call_logs db2 |},
       fx1 ++ fx2).
Proof.
  intros Hid Hfind Hst Hatt Hfresh voice rec0 db1 script.
  unfold initiate_order_confirmation_call. rewrite Hid, Hfind.
  apply String.eqb_neq in Hst. rewrite Hst.
  assert (Hle : (Order.max_call_attempts o <=? Order.call_attempts o)%Z = false)
    by (apply Z.leb_gt; exact Hatt).
  rewrite Hle.
  rewrite (create_call_fresh _ _ _ _ _ _ Hfresh).
  reflexivity.
Qed.

(** The synthesis-failure path, in full. *)
Lemma initiate_failure_path env order_id user language voice_id db oid o :
  ObjectId_of_str order_id = Some oid ->
  Mongo.find_one (owned_order oid user) (orders db) = Some o ->
  Order.confirmation_status o <> "confirmed" ->
  (Order.call_attempts o < Order.max_call_attempts o)%Z ->
  call_id_taken (inserted_id env) db = false ->
  Py.truthy_bytes (synthesized_audio env o language voice_id) = false ->
  initiate_order_confirmation_call env order_id user language voice_id db =
    (Raise (mkHTTPException 500 "Failed to generate audio"),
     {| orders := orders db;
        call_logs := call_logs db ++ [failed_record env oid user language voice_id] |},
     synthesis_requests env o language voice_id).
Proof.
  intros Hid Hfind Hst Hatt Hfresh Haudio.
  rewrite (initiate_eligible _ _ _ _ _ _ _ _ Hid Hfind Hst Hatt Hfresh).
  unfold synthesized_audio in Haudio. unfold synthesis_requests.
  destruct (create_conversation_audio _ _ _ _) as [audio fx1]. cbn [fst snd] in *.
  rewrite Haudio. cbn [negb].
  rewrite update_call_last.
  - reflexivity.
  - now apply call_id_taken_find.
  - intros H. apply (f_equal Call.status) in H. discriminate H.
Qed.

(** The dispatch path, in full. *)
Lemma initiate_dispatch_path env order_id user language voice_id db oid o :
  ObjectId_of_str order_id = Some oid ->
  Mongo.find_one (owned_order oid user) (orders db) = Some o ->
  Order.confirmation_status o <> "confirmed" ->
  (Order.call_attempts o < Order.max_call_attempts o)%Z ->
  call_id_taken (inserted_id env) db = false ->
  Py.truthy_bytes (synthesized_audio env o language voice_id) = true ->
  initiate_order_confirmation_call env order_id user language voice_id db =
    (Return (Some (dispatched_record env oid user o language voice_id)),
     {| orders :=
          Mongo.update_one (fun x => N.eqb (Order._id x) oid)
            (count_attempt (now_last_call_date env)) (orders db);
        call_logs := call_logs db ++ [dispatched_record env oid user o language voice_id] |},
     synthesis_requests env o language voice_id
     ++ snd (dispatch_of env o language voice_id)).
Proof.
  intros Hid Hfind Hst Hatt Hfresh Haudio.
  rewrite (initiate_eligible _ _ _ _ _ _ _ _ Hid Hfind Hst Hatt Hfresh).
  unfold dispatched_record, dispatch_of, synthesis_requests.
  unfold synthesized_audio in *.
  destruct (create_conversation_audio _ _ _ _) as [audio fx1]. cbn [fst snd] in *.
  rewrite Haudio. cbn [negb].
  cbn [Call.call_id call_document].
  destruct (make_voice_call _ _ _) as [call_result fx2]. cbn [fst snd].
  rewrite update_call_last.
  - reflexivity.
  - now apply call_id_taken_find.
  - intros H. apply (f_equal Call.status) in H.
    destruct (Py.truthy_value _); discriminate H.
Qed.

(** The answer of the dispatcher says [success] when the client is configured. *)
Lemma make_voice_call_success phone audio call_id :
  Py.truthy_value (fst (make_voice_call phone audio call_id) !! "success") = twilio_client.
Proof.
  unfold make_voice_call. destruct twilio_client; cbn [negb fst].
  - now rewrite lookup_insert_eq.
  - now rewrite lookup_insert_eq.
Qed.


(** ** Claims about [initiate_order_confirmation_call] *)





(** ** [$set] on a call record *)

Lemma over_idem {A : Type} (new old : option A) :
  CallSet.over new (CallSet.over new old) = CallSet.over new old.
Proof. now destruct new. Qed.

Lemma default_idem {A : Type} (new : option A) (old : A) :
  default (default old new) new = default old new.
Proof. now destruct new. Qed.

(** Writing the same [$set] document twice is writing it once. *)
Lemma apply_idem u d : CallSet.apply u (CallSet.apply u d) = CallSet.apply u d.
Proof.
  unfold CallSet.apply. cbn.
  rewrite !over_idem, !default_idem. reflexivity.
Qed.

Lemma confirm_order_idem t o : confirm_order t (confirm_order t o) = confirm_order t o.
Proof. unfold confirm_order, OrderSet.apply. cbn. now rewrite !Z.add_0_r. Qed.

(** ** The table of provider statuses *)


(** ** [process_call_webhook] *)

Lemma process_unmatched t1 t2 t3 call_id wd db :
  Mongo.find_one (fun d => String.eqb (Call.call_id d) call_id) (call_logs db) = None ->
  process_call_webhook t1 t2 t3 call_id wd db = (false, db).
Proof. intros H. unfold process_call_webhook. now rewrite H. Qed.

(** The derived outcome, once the duration is known to read as [d]. *)
Lemma derive_outcome_parsed mapped duration d :
  int_duration duration = Some d ->
  derive_outcome mapped duration = Some (outcome_of mapped d).
Proof.
  intros H. unfold derive_outcome, outcome_of. rewrite H.
  destruct (String.eqb mapped "completed"); cbn; [|reflexivity].
  now destruct (10 <? d)%Z.
Qed.

Lemma process_unparsed t1 t2 t3 call_id wd db :
  duration_of wd = None ->
  process_call_webhook t1 t2 t3 call_id wd db = (false, db).
Proof.
  intros H. unfold duration_of in H. unfold process_call_webhook.
  destruct (Mongo.find_one _ _); [|reflexivity].
  destruct (derive_outcome _ _); cbn; now rewrite ?H.
Qed.

Lemma process_matched t1 t2 t3 call_id wd db call d :
  Mongo.find_one (fun x => String.eqb (Call.call_id x) call_id) (call_logs db) = Some call ->
  duration_of wd = Some d ->
  process_call_webhook t1 t2 t3 call_id wd db =
    (true,
     {| orders :=
          if String.eqb (outcome_of (mapped_status_of wd) d) "completed"
          then Mongo.update_one (fun o => N.eqb (Order._id o) (Call.order_id call))
                 (confirm_order t3) (orders db)
          else orders db;
        call_logs :=
          Mongo.update_one (fun x => String.eqb (Call.call_id x) call_id)
            (CallSet.apply (webhook_update_data t1 t2 wd (mapped_status_of wd) d
               (outcome_of (mapped_status_of wd) d)))
            (call_logs db) |}).
Proof.
  intros Hc Hd. unfold duration_of in Hd. unfold process_call_webhook.
  rewrite Hc, (derive_outcome_parsed _ _ _ Hd). cbn. now rewrite Hd.
Qed.




(** C5. Applying an event a second time, with the same readings of the
    clock, gives the result and the database of applying it once: the call
    record and the order are overwritten with the values they already hold. *)
Theorem webhook_idempotent t1 t2 t3 call_id wd db :
  process_call_webhook t1 t2 t3 call_id wd
    (snd (process_call_webhook t1 t2 t3 call_id wd db))
  = process_call_webhook t1 t2 t3 call_id wd db.
Proof.
  destruct (Mongo.find_one (fun x => String.eqb (Call.call_id x) call_id) (call_logs db))
    as [call|] eqn:Hcall.
  - destruct (duration_of wd) as [d|] eqn:Hd.
    + rewrite (process_matched _ _ _ _ _ _ _ _ Hcall Hd). cbn [snd].
      set (u := CallSet.apply (webhook_update_data t1 t2 wd (mapped_status_of wd) d
                                 (outcome_of (mapped_status_of wd) d))).
      assert (Hcall' :
        Mongo.find_one (fun x => String.eqb (Call.call_id x) call_id)
          (Mongo.update_one (fun x => String.eqb (Call.call_id x) call_id) u (call_logs db))
        = Some (u call)).
      { rewrite find_one_update_one, Hcall by (intros x Hx; exact Hx). reflexivity. }
      erewrite process_matched; [| cbn [call_logs]; exact Hcall' | exact Hd].
      cbn [orders call_logs].
      f_equal. f_equal.
      * replace (Call.order_id (u call)) with (Call.order_id call) by reflexivity.
        destruct (String.eqb _ "completed"); [|reflexivity].
        apply update_one_idem.
        -- intros x Hx. exact Hx.
        -- intros x _. apply confirm_order_idem.
      * apply update_one_idem.
        -- intros x Hx. exact Hx.
        -- intros x _. apply apply_idem.
    + now rewrite !(process_unparsed _ _ _ _ _ _ Hd).
  - rewrite (process_unmatched _ _ _ _ _ _ Hcall). cbn [snd].
    now rewrite (process_unmatched _ _ _ _ _ _ Hcall).
Qed.

(** C7, as the code has it. An event whose call identifier matches no record
    is not applied: [process_call_webhook] returns [False] and the database
    is the one it was given; the webhook route then answers the 400
    [Failed to process webhook]. *)
Theorem webhook_unknown_call t1 t2 t3 call_id wd db :
  Mongo.find_one (fun x => String.eqb (Call.call_id x) call_id) (call_logs db) = None ->
  process_call_webhook t1 t2 t3 call_id wd db = (false, db)
  /\ (wd !! "CallSid" = Some call_id -> call_id <> "" ->
      twilio_webhook t1 t2 t3 wd db =
        (Raise (mkHTTPException 400 "Failed to process webhook"), db)).
Proof.
  intros Hnone. split; [now apply process_unmatched|].
  intros Hsid Hne. unfold twilio_webhook. rewrite Hsid.
  destruct call_id as [|a r]; [contradiction|].
  now rewrite (process_unmatched _ _ _ _ _ _ Hnone).
Qed.

(** ** [ended_at] *)




(** ** Who writes [confirmation_status] *)





(** ** [get_call_stats] *)

Lemma completed_calls_cons d l :
  completed_calls (d :: l) =
    ((if String.eqb (Call.status d) "completed" then 1 else 0) + completed_calls l)%Z.
Proof.
  unfold completed_calls. cbn [List.filter].
  destruct (String.eqb _ _); cbn [length]; lia.
Qed.

Lemma known_durations_cons d l :
  sum_Z (known_durations (d :: l)) =
    (match Call.duration d with Some n => n | None => 0 end + sum_Z (known_durations l))%Z.
Proof.
  unfold known_durations. cbn [omap list_omap].
  destruct (Call.duration d); reflexivity.
Qed.

(** The accumulators after a run of documents. *)
Lemma group_totals l : forall acc,
  g_total_calls (fold_left group_step l acc) = (g_total_calls acc + Z.of_nat (length l))%Z
  /\ g_successful_calls (fold_left group_step l acc)
     = (g_successful_calls acc + completed_calls l)%Z
  /\ g_total_duration (fold_left group_step l acc)
     = (g_total_duration acc + sum_Z (known_durations l))%Z.
Proof.
  induction l as [|d l IH]; intros acc.
  - cbn. unfold completed_calls. cbn. lia.
  - cbn [fold_left]. destruct (IH (group_step acc d)) as (H1 & H2 & H3).
    rewrite H1, H2, H3, completed_calls_cons, known_durations_cons.
    cbn [group_step g_total_calls g_successful_calls g_total_duration length].
    lia.
Qed.

(** C8, as the code has it. Over the calls the requester sees, the counts
    are the number of calls, the number of calls with status [completed] and
    the sum of the durations that are not null; the success rate is the
    completed calls over all calls, times 100, and the average duration is
    the sum of the durations over the number of all calls, a call with no
    duration counting in the divisor. Both are computed in floating point,
    the quotient first and then the product, and rounded to two places, and
    both are zero when there is no call. The database comes back as it was
    given. *)
Theorem call_stats_quantities user db :
  let calls := List.filter (visible_call user) (call_logs db) in
  let stats := fst (get_call_stats user db) in
  snd (get_call_stats user db) = db
  /\ CallStats.total_calls stats = Z.of_nat (length calls)
  /\ CallStats.successful_calls stats = completed_calls calls
  /\ CallStats.total_duration stats = sum_Z (known_durations calls)
  /\ (calls <> [] ->
      CallStats.success_rate stats =
        round2 (float_mul_int
                  (int_truediv (completed_calls calls) (Z.of_nat (length calls))) 100)
      /\ CallStats.average_duration stats =
           round2 (int_truediv (sum_Z (known_durations calls)) (Z.of_nat (length calls))))
  /\ (calls = [] ->
      CallStats.success_rate stats = float_zero
      /\ CallStats.average_duration stats = float_zero).
Proof.
  intros calls stats. unfold stats, get_call_stats, aggregate. fold calls.
  destruct calls as [|d l] eqn:Hcalls.
  - cbn. split_and!; try reflexivity; [intros H; now contradiction H | auto].
  - destruct (group_totals (d :: l) group_init) as (H1 & H2 & H3).
    cbn [g_total_calls g_successful_calls g_total_duration group_init] in H1, H2, H3.
    rewrite Z.add_0_l in H1, H2, H3.
    cbn [fst snd CallStats.total_calls CallStats.successful_calls CallStats.total_duration
         CallStats.success_rate CallStats.average_duration].
    rewrite H1, H2, H3.
    assert (Hpos : (0 <? Z.of_nat (length (d :: l)))%Z = true)
      by (apply Z.ltb_lt; cbn [length]; lia).
    rewrite Hpos.
    split_and!; try reflexivity; [auto | discriminate].
Qed.

(** * Further facts *)

(** ** Collections, continued *)

Section MoreCollectionFacts.
Context {D : Type}.
Implicit Types (q : D -> bool) (u : D -> D) (c : list D) (d : D).

Lemma length_update_one q u c : length (Mongo.update_one q u c) = length c.
Proof.
  induction c as [|x c IH]; [reflexivity|]. cbn [Mongo.update_one].
  destruct (q x); cbn [length]; [reflexivity | now rewrite IH].
Qed.



(** A property that holds of the rewritten first match is kept. *)
Lemma Forall_update_one (P : D -> Prop) q u c :
  Forall P c ->
  (forall d, Mongo.find_one q c = Some d -> P (u d)) ->
  Forall P (Mongo.update_one q u c).
Proof.
  induction c as [|x c IH]; intros Hc Hu; [constructor|].
  apply Forall_cons in Hc as [Hx Hc]. cbn [Mongo.find_one Mongo.update_one] in *.
  destruct (q x).
  - apply Forall_cons. split; [now apply Hu | exact Hc].
  - apply Forall_cons. split; [exact Hx | now apply IH].
Qed.

(** With unique keys, two documents of the collection with one key are one. *)
Lemma same_key_same_doc (key : D -> ObjectId) c d d' :
  NoDup (key <$> c) -> d ∈ c -> d' ∈ c -> key d = key d' -> d = d'.
Proof.
  induction c as [|x c IH]; intros Hnd Hd Hd' Hk; [now apply elem_of_nil in Hd|].
  rewrite fmap_cons in Hnd. apply NoDup_cons in Hnd as [Hx Hc].
  apply elem_of_cons in Hd as [-> | Hd]; apply elem_of_cons in Hd' as [-> | Hd'].
  - reflexivity.
  - exfalso. apply Hx. rewrite Hk. now apply list_elem_of_fmap_2.
  - exfalso. apply Hx. rewrite <- Hk. now apply list_elem_of_fmap_2.
  - now apply IH.
Qed.

(** [find_one] finds a document of the collection that satisfies the filter,
    whenever there is one. *)
Lemma find_one_is_Some q c d :
  d ∈ c -> q d = true -> exists d', Mongo.find_one q c = Some d'.
Proof.
  induction c as [|x c IH]; intros Hd Hq; [now apply elem_of_nil in Hd|].
  cbn [Mongo.find_one]. destruct (q x) eqn:Hx; [eauto|].
  apply elem_of_cons in Hd as [-> | Hd]; [congruence | now apply IH].
Qed.

(** With unique keys and a filter that fixes the key, [find_one] returns
    the one document that satisfies the filter. *)
Lemma find_one_unique (key : D -> ObjectId) (i : ObjectId) q c d :
  NoDup (key <$> c) ->
  (forall x, q x = true -> key x = i) ->
  d ∈ c -> q d = true ->
  Mongo.find_one q c = Some d.
Proof.
  intros Hnd Hq Hd Hqd.
  destruct (find_one_is_Some q c d Hd Hqd) as [d' Hd'].
  rewrite Hd'. f_equal.
  destruct (find_one_Some _ _ _ Hd') as [Hqd' Hin].
  apply (same_key_same_doc key c); try assumption.
  now rewrite (Hq _ Hqd), (Hq _ Hqd').
Qed.


(** The first match of the key, under the same hypotheses. *)
Lemma find_one_key (key : D -> ObjectId) (i : ObjectId) q c d :
  NoDup (key <$> c) ->
  (forall x, q x = true -> key x = i) ->
  Mongo.find_one q c = Some d ->
  Mongo.find_one (fun x => N.eqb (key x) i) c = Some d.
Proof.
  intros Hnd Hq Hd. destruct (find_one_Some _ _ _ Hd) as [Hqd Hin].
  apply (find_one_unique key i); try assumption.
  - intros x Hx. now apply N.eqb_eq.
  - apply N.eqb_eq. now apply Hq.
Qed.





End MoreCollectionFacts.

(** ** [initiate_order_confirmation_call], continued *)

(** An invocation ends in an exception before any write and any request, or
    runs past the checks with a fresh [_id] for its record. *)
Lemma initiate_cases env order_id user language voice_id db :
  (exists e,
     initiate_order_confirmation_call env order_id user language voice_id db
     = (Raise e, db, []))
  \/ (exists oid o,
        ObjectId_of_str order_id = Some oid
        /\ Mongo.find_one (owned_order oid user) (orders db) = Some o
        /\ Order.confirmation_status o <> "confirmed"
        /\ (Order.call_attempts o < Order.max_call_attempts o)%Z
        /\ call_id_taken (inserted_id env) db = false).
Proof.
  unfold initiate_order_confirmation_call.
  destruct (ObjectId_of_str order_id) as [oid|]; [|left; eauto].
  destruct (Mongo.find_one _ _) as [o|] eqn:Hfind; [|left; eauto].
  destruct (String.eqb_spec (Order.confirmation_status o) "confirmed") as [Hst|Hst];
    [left; eauto|].
  destruct (Z.leb_spec (Order.max_call_attempts o) (Order.call_attempts o)) as [Hle|Hlt];
    [left; eauto|].
  destruct (call_id_taken (inserted_id env) db) eqn:Hfresh.
  - left. unfold create_call, Mongo.insert_one. cbn [Call._id call_document].
    unfold call_id_taken in Hfresh. rewrite Hfresh. eauto.
  - right. exists oid, o. auto.
Qed.

(** The status the dispatch path stores. *)
Lemma dispatched_record_status env oid user o language voice_id :
  Call.status (dispatched_record env oid user o language voice_id)
  = if twilio_client then "in_progress" else "failed".
Proof.
  unfold dispatched_record, dispatch_of. rewrite make_voice_call_success.
  now destruct twilio_client.
Qed.

(** X1. Whatever its arguments, an invocation leaves the call log it was
    given in place and adds at most one record to it, the one it created:
    that record carries the generated identifiers and the requester's id, and
    it is never left in the status [initiated]. The orders keep their [_id],
    their owner and their budget. An invocation that returns, returns a
    record. *)
Theorem initiate_appends_one_record env order_id user language voice_id db :
  let r := initiate_order_confirmation_call env order_id user language voice_id db in
  let db' := snd (fst r) in
  (exists l,
     call_logs db' = call_logs db ++ l
     /\ (length l <= 1)%nat
     /\ Forall (fun rec =>
                  Call._id rec = inserted_id env
                  /\ Call.call_id rec = uuid4 env
                  /\ Call.user_id rec = User.id user
                  /\ (Call.status rec = "failed" \/ Call.status rec = "in_progress")) l)
  /\ Order._id <$> orders db' = Order._id <$> orders db
  /\ Order.user_id <$> orders db' = Order.user_id <$> orders db
  /\ Order.max_call_attempts <$> orders db' = Order.max_call_attempts <$> orders db
  /\ fst (fst r) <> Return None.
Proof.
  intros r db'. subst db' r.
  destruct (initiate_cases env order_id user language voice_id db)
    as [[e ->] | (oid & o & Hid & Hfind & Hst & Hatt & Hfresh)].
  - cbn [fst snd]. split_and!; try reflexivity; [|discriminate].
    exists []. rewrite app_nil_r. split_and!; [reflexivity | cbn; lia | constructor].
  - destruct (Py.truthy_bytes (synthesized_audio env o language voice_id)) eqn:Haudio.
    + rewrite (initiate_dispatch_path _ _ _ _ _ _ _ _ Hid Hfind Hst Hatt Hfresh Haudio).
      cbn [fst snd orders call_logs].
      split_and!; try (now apply fmap_update_one); [|discriminate].
      eexists [_]. split_and!; [reflexivity | cbn; lia |].
      apply Forall_singleton. split_and!; try reflexivity.
      rewrite dispatched_record_status. destruct twilio_client; auto.
    + rewrite (initiate_failure_path _ _ _ _ _ _ _ _ Hid Hfind Hst Hatt Hfresh Haudio).
      cbn [fst snd orders call_logs].
      split_and!; try reflexivity; [|discriminate].
      eexists [_]. split_and!; [reflexivity | cbn; lia |].
      apply Forall_singleton. split_and!; try reflexivity. now left.
Qed.

(** X2. With unique order ids, an invocation keeps every order within its
    budget: if no order has more attempts than its maximum before, none has
    after. *)
Theorem initiate_within_budget env order_id user language voice_id db :
  NoDup (Order._id <$> orders db) ->
  Forall (fun o => (Order.call_attempts o <= Order.max_call_attempts o)%Z) (orders db) ->
  Forall (fun o => (Order.call_attempts o <= Order.max_call_attempts o)%Z)
    (orders (snd (fst (initiate_order_confirmation_call env order_id user language
                         voice_id db)))).
Proof.
  intros Hnd Hall.
  destruct (initiate_cases env order_id user language voice_id db)
    as [[e ->] | (oid & o & Hid & Hfind & Hst & Hatt & Hfresh)]; [exact Hall|].
  destruct (Py.truthy_bytes (synthesized_audio env o language voice_id)) eqn:Haudio.
  - rewrite (initiate_dispatch_path _ _ _ _ _ _ _ _ Hid Hfind Hst Hatt Hfresh Haudio).
    cbn [fst snd orders]. apply Forall_update_one; [exact Hall|].
    intros d Hd.
    assert (Hkey : Mongo.find_one (fun x => N.eqb (Order._id x) oid) (orders db) = Some o).
    { apply (find_one_key Order._id oid (owned_order oid user)); try assumption.
      intros x Hx. unfold owned_order in Hx. apply andb_true_iff in Hx as [Hx _].
      now apply N.eqb_eq. }
    rewrite Hkey in Hd. injection Hd as <-.
    unfold count_attempt, OrderSet.apply. cbn. unused. lia.
  - rewrite (initiate_failure_path _ _ _ _ _ _ _ _ Hid Hfind Hst Hatt Hfresh Haudio).
    exact Hall.
Qed.




(** X5. Without a key for the voice provider no call is ever placed: every
    invocation ends in an exception, asks nothing of either provider and
    leaves the orders as they were; the one record it may add to the call
    log is stored as [failed] with the outcome [audio_generation_failed]. *)
Theorem no_voice_key_no_call env order_id user language voice_id db :
  Py.truthy_str (elevenlabs_api_key settings) = false ->
  exists e db',
    initiate_order_confirmation_call env order_id user language voice_id db
    = (Raise e, db', [])
    /\ orders db' = orders db
    /\ (db' = db
        \/ exists rec,
             call_logs db' = call_logs db ++ [rec]
             /\ Call.status rec = "failed"
             /\ Call.outcome rec = Some "audio_generation_failed").
Proof.
  intros Hkey.
  destruct (initiate_cases env order_id user language voice_id db)
    as [[e ->] | (oid & o & Hid & Hfind & Hst & Hatt & Hfresh)].
  - exists e, db. auto.
  - assert (Haudio : Py.truthy_bytes (synthesized_audio env o language voice_id) = false).
    { unfold synthesized_audio, create_conversation_audio, text_to_speech.
      now rewrite Hkey. }
    rewrite (initiate_failure_path _ _ _ _ _ _ _ _ Hid Hfind Hst Hatt Hfresh Haudio).
    eexists. eexists. split.
    + unfold synthesis_requests, create_conversation_audio, text_to_speech.
      rewrite Hkey. reflexivity.
    + cbn [orders call_logs]. split; [reflexivity|]. right.
      eexists. split_and!; reflexivity.
Qed.

(** ** The identifier the dispatcher reports *)

Lemma length_slice_to n s : (String.length (Py.slice_to n s) <= n)%nat.
Proof.
  unused. unfold Py.slice_to. revert s.
  induction n as [|n IH]; intros [|a s]; cbn; try lia.
  specialize (IH s). lia.
Qed.

Lemma find_one_Forall_false {D : Type} (q : D -> bool) (c : list D) :
  Forall (fun d => q d = false) c -> Mongo.find_one q c = None.
Proof.
  induction 1 as [|x c Hx _ IH]; [reflexivity|]. cbn [Mongo.find_one]. now rewrite Hx.
Qed.

(** X6. The identifier the dispatcher reports for a call is [CA] followed by
    the first 32 characters of the record's call id, so it has at most 34
    characters. The call ids of the records are uuid4 strings of 36
    characters: a delivery event that carries the reported identifier as its
    [CallSid] matches no record, is not applied, and the webhook route
    answers it with the 400 [Failed to process webhook]. *)
Theorem reported_sid_matches_no_record t1 t2 t3 phone audio call_id sid wd db :
  Forall (fun r => String.length (Call.call_id r) = 36%nat) (call_logs db) ->
  fst (make_voice_call phone audio call_id) !! "call_sid" = Some (VStr sid) ->
  wd !! "CallSid" = Some sid ->
  sid = "CA" +:+ Py.slice_to 32 call_id
  /\ (String.length sid <= 34)%nat
  /\ process_call_webhook t1 t2 t3 sid wd db = (false, db)
  /\ twilio_webhook t1 t2 t3 wd db
     = (Raise (mkHTTPException 400 "Failed to process webhook"), db).
Proof.
  intros Hlen Hsid Hwd.
  assert (Hs : sid = "CA" +:+ Py.slice_to 32 call_id).
  { unfold make_voice_call in Hsid. destruct twilio_client; cbn [negb fst] in Hsid.
    - rewrite lookup_insert_ne, lookup_insert_eq in Hsid by discriminate. congruence.
    - rewrite lookup_insert_ne, lookup_singleton_ne in Hsid by discriminate.
      discriminate Hsid. }
  assert (Hle : (String.length sid <= 34)%nat).
  { rewrite Hs.
    change ("CA" +:+ Py.slice_to 32 call_id)
      with (String "C" (String "A" (Py.slice_to 32 call_id))).
    cbn [String.length]. pose proof (length_slice_to 32 call_id). lia. }
  assert (Hnone : Mongo.find_one (fun x => String.eqb (Call.call_id x) sid) (call_logs db)
                  = None).
  { apply find_one_Forall_false. eapply Forall_impl; [exact Hlen|].
    intros r Hr. cbn beta in *. apply String.eqb_neq. intros E. rewrite E in Hr. lia. }
  split_and!; try assumption.
  - now apply process_unmatched.
  - unfold twilio_webhook. rewrite Hwd.
    destruct sid as [|a r]; [discriminate Hs|].
    now rewrite (process_unmatched _ _ _ _ _ _ Hnone).
Qed.

(** ** [update_call], continued *)



(** ** The readers *)

Lemma updatable_order_iff oid user o :
  updatable_order oid user o = true <-> Order._id o = oid /\ visible_order user o = true.
Proof.
  unfold updatable_order, visible_order. rewrite andb_true_iff, N.eqb_eq. reflexivity.
Qed.




#[local] Instance newer_first_total : Total newer_first.
Proof. intros a b. unfold newer_first. unused. lia. Qed.

#[local] Instance newer_first_trans : Transitive newer_first.
Proof. intros a b c. unfold newer_first. unused. lia. Qed.

Lemma matches_str_true (s : string) (field : option string) :
  matches_str (Some s) field = true -> s <> "" -> field = Some s.
Proof.
  unused. destruct s as [|a r]; [intros _ H; now contradiction H|].
  cbn. intros H _. now apply bool_decide_eq_true in H.
Qed.

(** X10. A page of [get_calls]: the database is left as it was; the page has
    at most [limit] records, newest first; every record of it is a stored
    record the requester sees (its own, unless the requester is an admin),
    created in the range of dates asked for and equal to each filter that was
    given on the status, the outcome, the language and the order. A filter on
    the order that [ObjectId] refuses gives the empty page. *)
Theorem get_calls_page user filters skip limit db :
  let page := fst (get_calls user filters skip limit db) in
  snd (get_calls user filters skip limit db) = db
  /\ (length page <= Pos.to_nat limit)%nat
  /\ StronglySorted newer_first page
  /\ (forall d,
        d ∈ page ->
        d ∈ call_logs db
        /\ visible_call user d = true
        /\ in_dates (CallFilters.date_from filters) (CallFilters.date_to filters)
             (Call.created_at d) = true
        /\ (forall s, CallFilters.status filters = Some s -> s <> "" -> Call.status d = s)
        /\ (forall s, CallFilters.outcome filters = Some s -> s <> "" ->
                      Call.outcome d = Some s)
        /\ (forall s, CallFilters.language filters = Some s -> s <> "" ->
                      Call.language d = s)
        /\ (forall s, CallFilters.order_id filters = Some s -> s <> "" ->
                      ObjectId_of_str s = Some (Call.order_id d)))
  /\ (forall s,
        CallFilters.order_id filters = Some s -> s <> "" -> ObjectId_of_str s = None ->
        page = []).
Proof.
  intros page. subst page. unfold get_calls.
  destruct (calls_query user filters) as [q|] eqn:Hquery; cbn [fst snd].
  - split; [reflexivity|]. split; [rewrite length_take; lia|]. split.
    { pose proof (StronglySorted_merge_sort newer_first (List.filter q (call_logs db)))
        as Hsorted.
      rewrite <- (take_drop skip (merge_sort newer_first _)) in Hsorted.
      apply StronglySorted_app_1_r in Hsorted.
      rewrite <- (take_drop (Pos.to_nat limit) (drop skip _)) in Hsorted.
      now apply StronglySorted_app_1_l in Hsorted. }
    unfold calls_query in Hquery. split.
    + intros d Hd.
      apply subseteq_take, subseteq_drop in Hd.
      rewrite merge_sort_Permutation in Hd.
      apply list_elem_of_In, filter_In in Hd as [Hin Hq].
      apply list_elem_of_In in Hin. split; [exact Hin|].
      destruct (CallFilters.order_id filters) as [[|a r]|] eqn:Hoid.
      * injection Hquery as <-. cbn beta in Hq.
        repeat (apply andb_true_iff in Hq as [Hq ?]).
        split_and!; try assumption.
        -- intros s Hs Hne. cut (Some (Call.status d) = Some s); [congruence|].
           apply matches_str_true; [now rewrite <- Hs | exact Hne].
        -- intros s Hs Hne. apply matches_str_true; [now rewrite <- Hs | exact Hne].
        -- intros s Hs Hne. cut (Some (Call.language d) = Some s); [congruence|].
           apply matches_str_true; [now rewrite <- Hs | exact Hne].
        -- intros s [= <-] Hne. now contradiction Hne.
      * destruct (ObjectId_of_str (String a r)) as [i|] eqn:Hi; [|discriminate Hquery].
        injection Hquery as <-. cbn beta in Hq.
        repeat (apply andb_true_iff in Hq as [Hq ?]).
        split_and!; try assumption.
        -- intros s Hs Hne. cut (Some (Call.status d) = Some s); [congruence|].
           apply matches_str_true; [now rewrite <- Hs | exact Hne].
        -- intros s Hs Hne. apply matches_str_true; [now rewrite <- Hs | exact Hne].
        -- intros s Hs Hne. cut (Some (Call.language d) = Some s); [congruence|].
           apply matches_str_true; [now rewrite <- Hs | exact Hne].
        -- intros s [= <-] _. rewrite Hi. f_equal. symmetry. now apply N.eqb_eq.
      * injection Hquery as <-. cbn beta in Hq.
        repeat (apply andb_true_iff in Hq as [Hq ?]).
        split_and!; try assumption.
        -- intros s Hs Hne. cut (Some (Call.status d) = Some s); [congruence|].
           apply matches_str_true; [now rewrite <- Hs | exact Hne].
        -- intros s Hs Hne. apply matches_str_true; [now rewrite <- Hs | exact Hne].
        -- intros s Hs Hne. cut (Some (Call.language d) = Some s); [congruence|].
           apply matches_str_true; [now rewrite <- Hs | exact Hne].
        -- discriminate.
    + intros s Hs Hne Hbad. rewrite Hs in Hquery.
      destruct s as [|a r]; [now contradiction Hne|]. rewrite Hbad in Hquery.
      discriminate Hquery.
  - split_and!; try reflexivity.
    + cbn. lia.
    + constructor.
    + intros d Hd. now apply elem_of_nil in Hd.
Qed.

(** ** The counting dictionaries of [get_call_stats] *)

Lemma occurrences_cons s v l :
  occurrences s (v :: l)
  = ((if bool_decide (v = Some s) then 1 else 0) + occurrences s l)%Z.
Proof.
  unused. unfold occurrences. cbn [List.filter].
  destruct (bool_decide (v = Some s)); cbn [length]; lia.
Qed.

Lemma occurrences_nonneg s l : (0 <= occurrences s l)%Z.
Proof. unused. unfold occurrences. lia. Qed.

(** The counting loop from any dictionary. *)
Lemma count_loop l : forall (m : gmap string Z) s, s <> "" ->
  fold_left
    (fun (m : gmap string Z) (v : option string) =>
       match v with
       | Some (String a r) => <[ String a r := default 0 (m !! String a r) + 1 ]> m
       | _ => m
       end)
    l m !! s
  = match m !! s with
    | Some k => Some (k + occurrences s l)%Z
    | None => counted (occurrences s l)
    end.
Proof.
  unused.
  induction l as [|v l IH]; intros m s Hs.
  - cbn [fold_left]. unfold occurrences. cbn.
    destruct (m !! s); [now rewrite Z.add_0_r | reflexivity].
  - cbn [fold_left]. rewrite (IH _ s Hs), occurrences_cons.
    pose proof (occurrences_nonneg s l) as Hpos.
    destruct v as [[|a r]|].
    + rewrite bool_decide_eq_false_2 by congruence. reflexivity.
    + destruct (decide (String a r = s)) as [<- | Hne].
      * rewrite lookup_insert_eq, bool_decide_eq_true_2 by reflexivity.
        destruct (m !! String a r) as [k|]; cbn [default from_option id].
        -- f_equal. lia.
        -- unfold counted. case_decide; [lia|]. f_equal; lia.
      * rewrite lookup_insert_ne by exact Hne.
        rewrite bool_decide_eq_false_2 by congruence. reflexivity.
    + rewrite bool_decide_eq_false_2 by congruence. reflexivity.
Qed.

(** The pushed values after a run of documents. *)
Lemma group_lists l : forall acc,
  g_outcomes (fold_left group_step l acc) = g_outcomes acc ++ (Call.outcome <$> l)
  /\ g_languages (fold_left group_step l acc)
     = g_languages acc ++ ((fun d => Some (Call.language d)) <$> l)
  /\ g_failed_calls (fold_left group_step l acc)
     = (g_failed_calls acc
        + Z.of_nat (length (List.filter (fun d => String.eqb (Call.status d) "failed") l)))%Z.
Proof.
  unused.
  induction l as [|d l IH]; intros acc.
  - cbn. rewrite !app_nil_r. split_and!; try reflexivity. lia.
  - cbn [fold_left]. destruct (IH (group_step acc d)) as (H1 & H2 & H3).
    rewrite H1, H2, H3. rewrite !fmap_cons.
    cbn [group_step g_outcomes g_languages g_failed_calls List.filter].
    rewrite <- !app_assoc. split_and!; try reflexivity.
    destruct (String.eqb (Call.status d) "failed"); cbn [length]; lia.
Qed.

(** The counting loop never makes the empty string a key. *)
Lemma count_loop_empty_key l : forall m : gmap string Z,
  m !! "" = None ->
  fold_left
    (fun (m : gmap string Z) (v : option string) =>
       match v with
       | Some (String a r) => <[ String a r := default 0 (m !! String a r) + 1 ]> m
       | _ => m
       end)
    l m !! "" = None.
Proof.
  unused.
  induction l as [|v l IH]; intros m Hm; [exact Hm|]. cbn [fold_left]. apply IH.
  destruct v as [[|a r]|]; try exact Hm. now rewrite lookup_insert_ne.
Qed.

Lemma count_values_lookup l s :
  s <> "" -> count_values l !! s = counted (occurrences s l).
Proof.
  unused.
  intros Hs. unfold count_values. rewrite (count_loop l ∅ s Hs), lookup_empty. reflexivity.
Qed.

Lemma count_values_empty_key l : count_values l !! "" = None.
Proof. unused. unfold count_values. apply count_loop_empty_key, lookup_empty. Qed.

(** X11. The breakdowns of [get_call_stats]: over the calls the requester
    sees, the dictionary of outcomes gives to every outcome that occurs the
    number of calls that have it, and has no key for an outcome that does
    not occur; the dictionary of languages does the same for the languages;
    neither has the empty string as a key, and a call with no outcome is
    counted under none. The failed calls are the calls with status
    [failed]. *)
Theorem call_stats_breakdown user db s :
  s <> "" ->
  let calls := List.filter (visible_call user) (call_logs db) in
  let stats := fst (get_call_stats user db) in
  CallStats.calls_by_outcome stats !! s
  = counted (occurrences s (Call.outcome <$> calls))
  /\ CallStats.calls_by_language stats !! s
     = counted (occurrences s ((fun d => Some (Call.language d)) <$> calls))
  /\ CallStats.calls_by_outcome stats !! "" = None
  /\ CallStats.calls_by_language stats !! "" = None
  /\ CallStats.failed_calls stats
     = Z.of_nat (length (List.filter (fun d => String.eqb (Call.status d) "failed") calls)).
Proof.
  intros Hs calls stats. subst stats. unfold get_call_stats, aggregate. fold calls.
  destruct calls as [|d l] eqn:Hcalls.
  - cbn [fst no_call_stats CallStats.calls_by_outcome CallStats.calls_by_language
         CallStats.failed_calls].
    rewrite !lookup_empty. split_and!; reflexivity.
  - destruct (group_lists (d :: l) group_init) as (H1 & H2 & H3).
    cbn [g_outcomes g_languages g_failed_calls group_init] in H1, H2, H3.
    rewrite app_nil_l in H1, H2. rewrite Z.add_0_l in H3.
    cbn [fst CallStats.calls_by_outcome CallStats.calls_by_language CallStats.failed_calls].
    rewrite H1, H2, H3, !count_values_empty_key, !(count_values_lookup _ s Hs).
    split_and!; reflexivity.
Qed.

(** ** [create_order] *)

Lemma find_one_None_elem {D : Type} (q : D -> bool) (c : list D) (d : D) :
  Mongo.find_one q c = None -> d ∈ c -> q d = false.
Proof.
  intros Hnone Hin. destruct (q d) eqn:Hq; [|reflexivity].
  destruct (find_one_is_Some q c d Hin Hq) as [d' Hd']. congruence.
Qed.


(** A creation that returns: the order it appended and what it found. *)
Lemma create_order_Return inserted_id t1 t2 order_data db o db' :
  create_order inserted_id t1 t2 order_data db = (Return o, db') ->
  o = order_document inserted_id t1 t2 order_data
  /\ db' = {| orders := orders db ++ [o]; call_logs := call_logs db |}
  /\ Mongo.find_one (same_order order_data) (orders db) = None
  /\ Mongo.find_one (fun x => N.eqb (Order._id x) inserted_id) (orders db) = None.
Proof.
  unfold create_order, Mongo.insert_one.
  destruct (Mongo.find_one (same_order order_data) (orders db)) eqn:Hsame; [discriminate|].
  cbn [Order._id order_document].
  destruct (existsb _ (orders db)) eqn:Hex; [discriminate|].
  intros [= <- <-]. split_and!; try reflexivity. now apply find_one_None.
Qed.

(** A creation that raises has written nothing. *)
Lemma create_order_Raise inserted_id t1 t2 order_data db e db' :
  create_order inserted_id t1 t2 order_data db = (Raise e, db') ->
  db' = db /\ (status_code e = 400 \/ status_code e = 500)%Z.
Proof.
  unfold create_order, Mongo.insert_one.
  destruct (Mongo.find_one (same_order order_data) (orders db)) eqn:Hsame.
  - intros [= <- <-]. auto.
  - destruct (existsb _ (orders db)) eqn:Hex; [|discriminate].
    intros [= <- <-]. auto.
Qed.

Lemma create_order_keeps_keys_unique_aux inserted_id t1 t2 order_data db :
  NoDup (Order._id <$> orders db) ->
  NoDup ((fun o => (Order.order_id o, Order.user_id o)) <$> orders db) ->
  NoDup (Order._id <$> orders (snd (create_order inserted_id t1 t2 order_data db)))
  /\ NoDup ((fun o => (Order.order_id o, Order.user_id o))
              <$> orders (snd (create_order inserted_id t1 t2 order_data db))).
Proof.
  intros Hid Hpair.
  destruct (create_order inserted_id t1 t2 order_data db) as [[o|e] db'] eqn:Hc.
  - apply create_order_Return in Hc as (Ho & -> & Hsame & Hfresh).
    cbn [snd orders call_logs]. rewrite !fmap_app. split.
    + apply NoDup_app. split_and!; [exact Hid | | apply NoDup_singleton].
      intros i Hi Hi'. apply list_elem_of_singleton in Hi'.
      apply list_elem_of_fmap in Hi as (x & -> & Hx).
      pose proof (find_one_None_elem _ _ x Hfresh Hx) as Hq. cbn beta in Hq.
      apply N.eqb_neq in Hq. apply Hq. rewrite Hi', Ho. reflexivity.
    + apply NoDup_app. split_and!; [exact Hpair | | apply NoDup_singleton].
      intros k Hk Hk'. apply list_elem_of_singleton in Hk'.
      apply list_elem_of_fmap in Hk as (x & -> & Hx).
      pose proof (find_one_None_elem _ _ x Hsame Hx) as Hq.
      injection Hk' as H1 H2. rewrite Ho in H1, H2. cbn in H1, H2.
      unfold same_order in Hq. rewrite H1, H2, String.eqb_refl, N.eqb_refl in Hq.
      discriminate Hq.
  - apply create_order_Raise in Hc as [-> _]. cbn [snd]. auto.
Qed.

(** X12. [create_order] keeps the two keys of the orders unique: if no two
    orders share an [_id] and no two orders of one user share an external
    order id before, none do after, whether the creation returns or raises.
    The call log is not written. *)
Theorem create_order_keeps_keys_unique inserted_id t1 t2 order_data db :
  NoDup (Order._id <$> orders db) ->
  NoDup ((fun o => (Order.order_id o, Order.user_id o)) <$> orders db) ->
  let db' := snd (create_order inserted_id t1 t2 order_data db) in
  NoDup (Order._id <$> orders db')
  /\ NoDup ((fun o => (Order.order_id o, Order.user_id o)) <$> orders db')
  /\ call_logs db' = call_logs db.
Proof.
  intros Hid Hpair db'. subst db'.
  destruct (create_order_keeps_keys_unique_aux inserted_id t1 t2 order_data db Hid Hpair)
    as [H1 H2].
  split_and!; try assumption.
  unfold create_order.
  destruct (Mongo.find_one _ _); [reflexivity|].
  now destruct (Mongo.insert_one _ _ _).
Qed.


(** ** [delete_order] *)


(** ** [bulk_import_orders] *)



(** The loop keeps the keys of the orders unique. *)
Lemma bulk_import_loop_keys orders_data : forall acc db,
  NoDup (Order._id <$> orders db) ->
  NoDup ((fun o => (Order.order_id o, Order.user_id o)) <$> orders db) ->
  NoDup (Order._id <$> orders (snd (bulk_import_loop orders_data acc db)))
  /\ NoDup ((fun o => (Order.order_id o, Order.user_id o))
              <$> orders (snd (bulk_import_loop orders_data acc db))).
Proof.
  induction orders_data as [|[order_data env] rest IH]; intros acc db Hid Hpair.
  - cbn [bulk_import_loop snd]. auto.
  - cbn [bulk_import_loop].
    destruct (create_order_keeps_keys_unique_aux (order_inserted_id env)
                (order_now_created env) (order_now_updated env) order_data db Hid Hpair)
      as (Hid' & Hpair').
    destruct (create_order _ _ _ order_data db) as [[o|e] db']; cbn [snd] in *;
      now apply IH.
Qed.

(** X16. The route of the bulk import stores every order of the batch under
    the requester, whatever owner the payload names, and keeps the keys of
    the orders unique, inside the batch too: of two orders of the batch with
    one external id, at most one is stored. *)
Theorem bulk_import_route_keeps_keys_unique orders_data current_user db :
  NoDup (Order._id <$> orders db) ->
  NoDup ((fun o => (Order.order_id o, Order.user_id o)) <$> orders db) ->
  let db' := snd (route_bulk_import_orders orders_data current_user db) in
  NoDup (Order._id <$> orders db')
  /\ NoDup ((fun o => (Order.order_id o, Order.user_id o)) <$> orders db')
  /\ exists l,
       orders db' = orders db ++ l
       /\ Forall (fun o => Order.user_id o = User.id current_user) l.
Proof.
  intros Hid Hpair db'. subst db'. unfold route_bulk_import_orders, bulk_import_orders.
  destruct (bulk_import_loop_keys
              (map (fun p => (with_user_id (User.id current_user) (fst p), snd p)) orders_data)
              (mkBulkImport 0 0 []) db Hid Hpair) as [H1 H2].
  split_and!; try assumption.
  clear Hid Hpair H1 H2. generalize (mkBulkImport 0 0 []) as acc. revert db.
  induction orders_data as [|[order_data env] rest IH]; intros db acc.
  - exists []. cbn. rewrite app_nil_r. split; [reflexivity | constructor].
  - cbn [map fst snd bulk_import_loop].
    destruct (create_order _ _ _ _ db) as [[o|e] db'] eqn:Hc.
    + apply create_order_Return in Hc as (Ho & -> & _ & _).
      match goal with |- context [bulk_import_loop _ ?a ?d] =>
        destruct (IH d a) as (l & Hl & Hall) end.
      exists (o :: l). cbn [orders] in Hl. rewrite Hl, <- app_assoc. split; [reflexivity|].
      apply Forall_cons. split; [now rewrite Ho | exact Hall].
    + apply create_order_Raise in Hc as [-> _].
      match goal with |- context [bulk_import_loop _ ?a ?d] =>
        destruct (IH d a) as (l & Hl & Hall) end.
      exists l. auto.
Qed.

(** ** [get_order_stats] *)

Lemma orders_with_cons status o l :
  orders_with status (o :: l) = (has_status status o + orders_with status l)%Z.
Proof.
  unused. unfold orders_with, has_status. cbn [List.filter].
  destruct (String.eqb _ _); cbn [length]; lia.
Qed.

(** An order has at most one of the four statuses. *)
Lemma has_status_exclusive o :
  (0 <= has_status "pending" o /\ 0 <= has_status "confirmed" o
   /\ 0 <= has_status "failed" o /\ 0 <= has_status "cancelled" o
   /\ has_status "pending" o + has_status "confirmed" o
      + has_status "failed" o + has_status "cancelled" o <= 1)%Z.
Proof.
  unused. unfold has_status.
  destruct (String.eqb_spec (Order.confirmation_status o) "pending") as [-> | ?];
    [cbn; lia|].
  destruct (String.eqb_spec (Order.confirmation_status o) "confirmed") as [-> | ?];
    [cbn; lia|].
  destruct (String.eqb_spec (Order.confirmation_status o) "failed") as [-> | ?];
    [cbn; lia|].
  destruct (String.eqb (Order.confirmation_status o) "cancelled"); lia.
Qed.

Lemma orders_with_exclusive l :
  (orders_with "pending" l + orders_with "confirmed" l
   + orders_with "failed" l + orders_with "cancelled" l <= Z.of_nat (length l))%Z.
Proof.
  unused. induction l as [|o l IH].
  - unfold orders_with. cbn. lia.
  - rewrite !orders_with_cons. pose proof (has_status_exclusive o). cbn [length]. lia.
Qed.

(** The accumulators after a run of orders. *)
Lemma order_group_totals l : forall acc,
  let r := fold_left order_group_step l acc in
  og_total_orders r = (og_total_orders acc + Z.of_nat (length l))%Z
  /\ og_pending_orders r = (og_pending_orders acc + orders_with "pending" l)%Z
  /\ og_confirmed_orders r = (og_confirmed_orders acc + orders_with "confirmed" l)%Z
  /\ og_failed_orders r = (og_failed_orders acc + orders_with "failed" l)%Z
  /\ og_cancelled_orders r = (og_cancelled_orders acc + orders_with "cancelled" l)%Z
  /\ og_total_call_attempts r
     = (og_total_call_attempts acc + sum_Z (Order.call_attempts <$> l))%Z.
Proof.
  unused. induction l as [|o l IH]; intros acc r; subst r.
  - unfold orders_with. cbn. lia.
  - cbn [fold_left]. destruct (IH (order_group_step acc o)) as (H1 & H2 & H3 & H4 & H5 & H6).
    rewrite H1, H2, H3, H4, H5, H6, !orders_with_cons, fmap_cons.
    cbn [order_group_step og_total_orders og_pending_orders og_confirmed_orders
         og_failed_orders og_cancelled_orders og_total_call_attempts length sum_Z foldr].
    fold (sum_Z (Order.call_attempts <$> l)). lia.
Qed.

(** X17. The order statistics, over the orders the requester sees (its own,
    or all of them for an admin): the total is their number, each of the four
    counters is the number of them with that status, and the four counters
    add up to at most the total, an order with another status counting in the
    total only. The confirmation rate is the confirmed orders over the total,
    times 100, and the average of the call attempts is their sum over the
    total, both computed in floating point, the quotient first and then the
    product, and rounded to two places, and both zero when there is no
    order. The database comes back as it was given. *)
Theorem order_stats_quantities user db :
  let visible := List.filter (visible_order user) (orders db) in
  let stats := fst (get_order_stats user db) in
  snd (get_order_stats user db) = db
  /\ OrderStats.total_orders stats = Z.of_nat (length visible)
  /\ OrderStats.pending_orders stats = orders_with "pending" visible
  /\ OrderStats.confirmed_orders stats = orders_with "confirmed" visible
  /\ OrderStats.failed_orders stats = orders_with "failed" visible
  /\ OrderStats.cancelled_orders stats = orders_with "cancelled" visible
  /\ (OrderStats.pending_orders stats + OrderStats.confirmed_orders stats
      + OrderStats.failed_orders stats + OrderStats.cancelled_orders stats
      <= OrderStats.total_orders stats)%Z
  /\ (visible <> [] ->
      OrderStats.confirmation_rate stats
      = round2 (float_mul_int
                  (int_truediv (orders_with "confirmed" visible)
                     (Z.of_nat (length visible))) 100)
      /\ OrderStats.average_call_attempts stats
         = round2 (int_truediv (sum_Z (Order.call_attempts <$> visible))
                     (Z.of_nat (length visible))))
  /\ (visible = [] ->
      OrderStats.confirmation_rate stats = float_zero
      /\ OrderStats.average_call_attempts stats = float_zero).
Proof.
  intros visible stats. subst stats. unfold get_order_stats. fold visible.
  pose proof (orders_with_exclusive visible) as Hex.
  destruct visible as [|o l] eqn:Hvisible.
  - split_and!; try reflexivity; try (intros H; now contradiction H);
      try (intros _; split; reflexivity).
  - destruct (order_group_totals (o :: l) (mkOrderGroupAcc 0 0 0 0 0 0))
      as (H1 & H2 & H3 & H4 & H5 & H6).
    cbn [og_total_orders og_pending_orders og_confirmed_orders og_failed_orders
         og_cancelled_orders og_total_call_attempts] in H1, H2, H3, H4, H5, H6.
    rewrite Z.add_0_l in H1, H2, H3, H4, H5, H6.
    cbn [fst snd OrderStats.total_orders OrderStats.pending_orders
         OrderStats.confirmed_orders OrderStats.failed_orders OrderStats.cancelled_orders
         OrderStats.confirmation_rate OrderStats.average_call_attempts].
    rewrite H1, H2, H3, H4, H5, H6.
    assert (Hpos : (0 <? Z.of_nat (length (o :: l)))%Z = true)
      by (apply Z.ltb_lt; cbn [length]; lia).
    rewrite Hpos.
    split_and!; try reflexivity; [exact Hex | auto | discriminate].
Qed.

(** ** [update_order], continued *)

(** An update whose first match is outside a filter, before and after, is
    not seen through the filter. *)
Lemma filter_update_one {D : Type} (p q : D -> bool) (u : D -> D) (c : list D) :
  (forall d, Mongo.find_one q c = Some d -> p d = false /\ p (u d) = false) ->
  List.filter p (Mongo.update_one q u c) = List.filter p c.
Proof.
  induction c as [|x c IH]; intros H; [reflexivity|].
  cbn [Mongo.find_one Mongo.update_one] in *. destruct (q x) eqn:Hq.
  - destruct (H x eq_refl) as [H1 H2]. cbn [List.filter]. now rewrite H1, H2.
  - cbn [List.filter]. now rewrite (IH H).
Qed.

Lemma filter_delete_one {D : Type} (p q : D -> bool) (c : list D) :
  (forall d, Mongo.find_one q c = Some d -> p d = false) ->
  List.filter p (Mongo.delete_one q c) = List.filter p c.
Proof.
  induction c as [|x c IH]; intros H; [reflexivity|].
  cbn [Mongo.find_one Mongo.delete_one] in *. destruct (q x) eqn:Hq.
  - cbn [List.filter]. now rewrite (H x eq_refl).
  - cbn [List.filter]. now rewrite (IH H).
Qed.

(** X18. [update_order] writes one order at most and nothing of what
    identifies an order: the [_id], the owner, the external order id, the
    customer, the order details, the budget of attempts and the creation
    date of every order are left as they were, and so is the call log. An
    order it returns is the stored one, with the id that was asked for and
    the new [updated_at]. *)
Theorem update_order_keeps_identity t1 t2 order_id order_update user db :
  let r := update_order t1 t2 order_id order_update user db in
  call_logs (snd r) = call_logs db
  /\ Order._id <$> orders (snd r) = Order._id <$> orders db
  /\ Order.user_id <$> orders (snd r) = Order.user_id <$> orders db
  /\ Order.order_id <$> orders (snd r) = Order.order_id <$> orders db
  /\ Order.customer <$> orders (snd r) = Order.customer <$> orders db
  /\ Order.order_details <$> orders (snd r) = Order.order_details <$> orders db
  /\ Order.max_call_attempts <$> orders (snd r) = Order.max_call_attempts <$> orders db
  /\ Order.created_at <$> orders (snd r) = Order.created_at <$> orders db
  /\ (forall o',
        fst r = Some o' ->
        ObjectId_of_str order_id = Some (Order._id o')
        /\ visible_order user o' = true
        /\ Order.updated_at o' = t1
        /\ o' ∈ orders (snd r)).
Proof.
  intros r. subst r. unfold update_order.
  destruct (ObjectId_of_str order_id) as [oid|];
    [|cbn [fst snd]; split_and!; try reflexivity; discriminate].
  destruct (Mongo.find_one (updatable_order oid user) (orders db)) as [o|] eqn:Hfind;
    [|cbn [fst snd]; split_and!; try reflexivity; discriminate].
  cbn [fst snd orders call_logs].
  split_and!; try reflexivity; try (now apply fmap_update_one).
  intros o' Ho'. destruct (find_one_Some _ _ _ Ho') as [Hq Hin].
  rewrite find_one_update_one, Hfind in Ho' by (intros x Hx; exact Hx).
  injection Ho' as <-.
  apply updatable_order_iff in Hq as [Hid Hv]. cbn in Hid. subst oid.
  split_and!; [reflexivity | exact Hv | reflexivity | exact Hin].
Qed.

(** X19. What a requester that is not an admin writes never touches the
    orders of the other users: they are the same, in the same order, after
    [update_order], after [delete_order] and after the route that creates an
    order, whatever the arguments; with unique order ids, also after
    [initiate_order_confirmation_call]. *)
Theorem writes_leave_other_users_orders user db :
  User.role user <> "admin" ->
  (forall t1 t2 order_id order_update,
     others_orders user (orders (snd (update_order t1 t2 order_id order_update user db)))
     = others_orders user (orders db))
  /\ (forall order_id,
        others_orders user (orders (snd (delete_order order_id user db)))
        = others_orders user (orders db))
  /\ (forall i t1 t2 order_data,
        others_orders user (orders (snd (route_create_order i t1 t2 order_data user db)))
        = others_orders user (orders db))
  /\ (forall env order_id language voice_id,
        NoDup (Order._id <$> orders db) ->
        others_orders user
          (orders (snd (fst (initiate_order_confirmation_call env order_id user language
                               voice_id db))))
        = others_orders user (orders db)).
Proof.
  intros Hrole. apply String.eqb_neq in Hrole.
  assert (Hown : forall oid o,
            updatable_order oid user o = true ->
            negb (N.eqb (Order.user_id o) (User.id user)) = false).
  { intros oid o Ho. unfold updatable_order in Ho. rewrite Hrole in Ho.
    apply andb_true_iff in Ho as [_ Ho]. cbn [orb] in Ho. now rewrite Ho. }
  unfold others_orders. split_and!.
  - intros t1 t2 order_id order_update. unfold update_order.
    destruct (ObjectId_of_str order_id) as [oid|]; [|reflexivity].
    destruct (Mongo.find_one (updatable_order oid user) (orders db)) as [o|] eqn:Hfind;
      [|reflexivity].
    cbn [snd orders]. apply filter_update_one. intros d Hd.
    rewrite Hfind in Hd. injection Hd as <-.
    destruct (find_one_Some _ _ _ Hfind) as [Hq _].
    split; [exact (Hown _ _ Hq)|]. apply (Hown oid). exact Hq.
  - intros order_id. unfold delete_order.
    destruct (ObjectId_of_str order_id) as [oid|]; [|reflexivity].
    cbn [snd orders]. apply filter_delete_one. intros d Hd.
    destruct (find_one_Some _ _ _ Hd) as [Hq _]. exact (Hown _ _ Hq).
  - intros i t1 t2 order_data. unfold route_create_order.
    destruct (create_order _ _ _ _ db) as [[o|e] db'] eqn:Hc.
    + apply create_order_Return in Hc as (Ho & -> & _ & _). cbn [snd orders].
      rewrite List.filter_app. cbn [List.filter].
      replace (Order.user_id o) with (User.id user) by (now rewrite Ho).
      rewrite N.eqb_refl. cbn [negb]. now rewrite app_nil_r.
    + apply create_order_Raise in Hc as [-> _]. reflexivity.
  - intros env order_id language voice_id Hnd.
    destruct (initiate_cases env order_id user language voice_id db)
      as [[e ->] | (oid & o & Hid & Hfind & Hst & Hatt & Hfresh)]; [reflexivity|].
    destruct (Py.truthy_bytes (synthesized_audio env o language voice_id)) eqn:Haudio.
    + rewrite (initiate_dispatch_path _ _ _ _ _ _ _ _ Hid Hfind Hst Hatt Hfresh Haudio).
      cbn [fst snd orders]. apply filter_update_one. intros d Hd.
      assert (Hkey : Mongo.find_one (fun x => N.eqb (Order._id x) oid) (orders db) = Some o).
      { apply (find_one_key Order._id oid (owned_order oid user)); try assumption.
        intros x Hx. unfold owned_order in Hx. apply andb_true_iff in Hx as [Hx _].
        now apply N.eqb_eq. }
      rewrite Hkey in Hd. injection Hd as <-.
      destruct (find_one_Some _ _ _ Hfind) as [Hq _].
      unfold owned_order in Hq. apply andb_true_iff in Hq as [_ Hq].
      cbn. now rewrite Hq.
    + rewrite (initiate_failure_path _ _ _ _ _ _ _ _ Hid Hfind Hst Hatt Hfresh Haudio).
      reflexivity.
Qed.

(** ** The script and its localization *)

Lemma substring_all s : String.substring 0 (String.length s) s = s.
Proof. unused. induction s as [|a s IH]; [reflexivity|]. cbn. now rewrite IH. Qed.

(** A string that starts with a prefix is the prefix and what follows it. *)
Lemma startswith_split p : forall s,
  Py.startswith p s = true -> s = p +:+ Py.slice_from (String.length p) s.
Proof.
  unused. unfold Py.startswith, Py.slice_from.
  induction p as [|a p IH]; intros s H.
  - cbn [String.length String.append]. rewrite Nat.sub_0_r. symmetry. apply substring_all.
  - destruct s as [|b s]; [discriminate H|]. cbn [String.prefix] in H.
    destruct (ascii_dec a b) as [-> | ?]; [|discriminate H].
    cbn [String.length Nat.sub String.substring].
    transitivity
      (String b (p +:+ String.substring (String.length p)
                         (String.length s - String.length p) s));
      [f_equal; exact (IH s H) | reflexivity].
Qed.

Lemma append_inj_l p x y : p +:+ x = p +:+ y -> x = y.
Proof.
  unused. induction p as [|a p IH]; cbn [String.append]; [auto|].
  intros [= H]. auto.
Qed.

(** A script that starts with [Hello] is [Hello] and what follows it. *)
Lemma startswith_Hello s :
  Py.startswith "Hello" s = true -> s = "Hello" +:+ Py.slice_from 5 s.
Proof. apply (startswith_split "Hello"). Qed.

(** The greetings of the table: none but [Hello] starts with [Hello]. *)
Lemma greeting_not_Hello language g rest :
  language_greetings !! language = Some g ->
  g = "Hello" \/ Py.startswith "Hello" (g +:+ rest) = false.
Proof.
  unused. intros H. apply elem_of_list_to_map_2 in H.
  repeat (apply elem_of_cons in H as [[= ? ?] | H];
          [subst; (left; reflexivity) || (right; reflexivity)|]).
  now apply elem_of_nil in H.
Qed.

(** Replacing [Hello] by [Hello] changes nothing. *)
Lemma replace_Hello_by_itself s :
  (if Py.startswith "Hello" s then "Hello" +:+ Py.slice_from 5 s else s) = s.
Proof.
  unused. destruct (Py.startswith "Hello" s) eqn:H; [|reflexivity].
  symmetry. now apply startswith_Hello.
Qed.

(** A language with no greeting in the table leaves the script as it is. *)
Lemma localize_script_no_greeting script language :
  language_greetings !! language = None -> localize_script script language = script.
Proof.
  unused. intros Hg. unfold localize_script. rewrite Hg. apply replace_Hello_by_itself.
Qed.

(** X20. [localize_script] is idempotent: localizing a localized script in
    the same language changes nothing, for every script and every language.
    A language with no greeting in the table, and English, leave every
    script as it is. *)
Theorem localize_script_idempotent script language :
  localize_script (localize_script script language) language
  = localize_script script language
  /\ (language_greetings !! language = None -> localize_script script language = script)
  /\ localize_script script "en" = script.
Proof.
  unused. split_and!.
  - unfold localize_script.
    destruct (language_greetings !! language) as [g|] eqn:Hg; cbn [default from_option id].
    + destruct (Py.startswith "Hello" script) eqn:Hp; [|now rewrite Hp].
      destruct (greeting_not_Hello language g (Py.slice_from 5 script) Hg) as [-> | Hn].
      * rewrite <- (startswith_Hello _ Hp). now rewrite Hp, <- (startswith_Hello _ Hp).
      * now rewrite Hn.
    + now rewrite !replace_Hello_by_itself.
  - apply localize_script_no_greeting.
  - unfold localize_script.
    replace (language_greetings !! "en") with (Some "Hello") by reflexivity.
    apply replace_Hello_by_itself.
Qed.

(** X21. What the voice provider is asked to speak: the script of an order
    starts with [Hello], a space and the customer's name, whatever the
    language, and the text sent for synthesis is that script with [Hello]
    replaced by the greeting of the language (or left, when the table has
    none); with a key configured, one request is made, for that text and the
    given voice. *)
Theorem spoken_script_greets_customer
    http customer_name order_id order_total currency items language voice_id :
  exists rest,
    generate_confirmation_script customer_name order_id order_total currency items language
    = "Hello " +:+ customer_name +:+ rest
    /\ localize_script
         (generate_confirmation_script customer_name order_id order_total currency items
            language) language
       = default "Hello" (language_greetings !! language) +:+ " " +:+ customer_name +:+ rest
    /\ (Py.truthy_str (elevenlabs_api_key settings) = true ->
        create_conversation_audio http
          (generate_confirmation_script customer_name order_id order_total currency items
             language) voice_id language
        = (http voice_id
             (default "Hello" (language_greetings !! language) +:+ " " +:+ customer_name
              +:+ rest),
           [TextToSpeech voice_id
              (default "Hello" (language_greetings !! language) +:+ " " +:+ customer_name
               +:+ rest)])).
Proof.
  assert (Hloc : forall tail,
            localize_script ("Hello " +:+ tail) language
            = default "Hello" (language_greetings !! language) +:+ " " +:+ tail).
  { intros tail.
    assert (Hp : Py.startswith "Hello" ("Hello " +:+ tail) = true) by reflexivity.
    assert (E : Py.slice_from 5 ("Hello " +:+ tail) = " " +:+ tail).
    { apply (append_inj_l "Hello"). symmetry. exact (startswith_Hello _ Hp). }
    unfold localize_script. now rewrite Hp, E. }
  unfold generate_confirmation_script.
  eexists. split; [reflexivity|]. split.
  - apply Hloc.
  - intros Hkey. unfold create_conversation_audio, text_to_speech. rewrite Hkey.
    cbn [negb]. now rewrite Hloc.
Qed.

(** X22. The table of greetings against the list of supported languages:
    every language that has a greeting is a supported language, and the
    seven supported languages [nl], [pl], [tr], [sv], [no], [da] and [fi] have
    none, so that a script is sent for synthesis in them as it was written,
    with its [Hello]. *)
Theorem greetings_and_supported_languages script :
  (forall code,
     is_Some (language_greetings !! code) -> code ∈ fst <$> get_supported_languages)
  /\ (forall code,
        code ∈ ["nl"; "pl"; "tr"; "sv"; "no"; "da"; "fi"] ->
        code ∈ fst <$> get_supported_languages
        /\ language_greetings !! code = None
        /\ localize_script script code = script).
Proof.
  unused. split.
  - intros code [g Hg]. apply elem_of_list_to_map_2 in Hg.
    repeat (apply elem_of_cons in Hg as [[= ? ?] | Hg];
            [subst; apply (bool_decide_unpack _); vm_compute; exact I|]).
    now apply elem_of_nil in Hg.
  - intros code Hcode.
    repeat (apply elem_of_cons in Hcode as [-> | Hcode];
            [split_and!;
             [apply (bool_decide_unpack _); vm_compute; exact I
             | reflexivity
             | now apply localize_script_no_greeting]|]).
    now apply elem_of_nil in Hcode.
Qed.

(** X23. What the script says of the items: it is the same for two lists of
    items that have the same number of items and the same quantities and
    names in their first three items, so no price, no stock unit and nothing
    of an item after the third is ever spoken; and it does not depend on the
    language it is asked in. *)
Theorem script_names_three_items
    customer_name order_id order_total currency items items' language language' :
  map (fun item => (OrderItem.quantity item, OrderItem.name item)) (take 3 items)
  = map (fun item => (OrderItem.quantity item, OrderItem.name item)) (take 3 items') ->
  length items = length items' ->
  generate_confirmation_script customer_name order_id order_total currency items language
  = generate_confirmation_script customer_name order_id order_total currency items'
      language'.
Proof.
  intros Hitems Hlen. unfold generate_confirmation_script.
  assert (Hm : forall l : list OrderItem.t,
            map (fun item => pretty (OrderItem.quantity item) +:+ " " +:+ OrderItem.name item) l
            = map (fun p : Z * string => pretty (fst p) +:+ " " +:+ snd p)
                (map (fun item => (OrderItem.quantity item, OrderItem.name item)) l)).
  { intros l. rewrite map_map. reflexivity. }
  destruct items as [|i l], items' as [|i' l']; try discriminate Hlen; [reflexivity|].
  cbv iota. now rewrite !Hm, Hitems, Hlen.
Qed.

(** ** The webhook, continued *)


(** X25. [process_call_webhook] creates and deletes nothing and rewrites no
    identity: whatever the event, the call log keeps its records with their
    [_id], call id, order, owner, language, transcript and dates of creation
    and start, and the orders keep their [_id], owner, external id, attempts,
    budget and last call date. *)
Theorem webhook_keeps_identities t1 t2 t3 call_id wd db :
  let db' := snd (process_call_webhook t1 t2 t3 call_id wd db) in
  Call._id <$> call_logs db' = Call._id <$> call_logs db
  /\ Call.call_id <$> call_logs db' = Call.call_id <$> call_logs db
  /\ Call.order_id <$> call_logs db' = Call.order_id <$> call_logs db
  /\ Call.user_id <$> call_logs db' = Call.user_id <$> call_logs db
  /\ Call.language <$> call_logs db' = Call.language <$> call_logs db
  /\ Call.transcript <$> call_logs db' = Call.transcript <$> call_logs db
  /\ Call.created_at <$> call_logs db' = Call.created_at <$> call_logs db
  /\ Call.started_at <$> call_logs db' = Call.started_at <$> call_logs db
  /\ Order._id <$> orders db' = Order._id <$> orders db
  /\ Order.user_id <$> orders db' = Order.user_id <$> orders db
  /\ Order.order_id <$> orders db' = Order.order_id <$> orders db
  /\ Order.call_attempts <$> orders db' = Order.call_attempts <$> orders db
  /\ Order.max_call_attempts <$> orders db' = Order.max_call_attempts <$> orders db
  /\ Order.last_call_date <$> orders db' = Order.last_call_date <$> orders db.
Proof.
  intros db'. subst db'.
  destruct (Mongo.find_one (fun x => String.eqb (Call.call_id x) call_id) (call_logs db))
    as [call|] eqn:Hcall;
    [|rewrite (process_unmatched _ _ _ _ _ _ Hcall); split_and!; reflexivity].
  destruct (duration_of wd) as [d|] eqn:Hd;
    [|rewrite (process_unparsed _ _ _ _ _ _ Hd); split_and!; reflexivity].
  rewrite (process_matched _ _ _ _ _ _ _ _ Hcall Hd). cbn [snd call_logs orders].
  assert (Hlogs : forall (B : Type) (f : Call.CallInDB -> B) u,
            (forall x, f (CallSet.apply u x) = f x) ->
            f <$> Mongo.update_one (fun x => String.eqb (Call.call_id x) call_id)
                    (CallSet.apply u) (call_logs db)
            = f <$> call_logs db)
    by (intros B f u Hf; now apply fmap_update_one).
  assert (Hord : forall (B : Type) (f : Order.OrderInDB -> B),
            (forall x, f (confirm_order t3 x) = f x) ->
            f <$> (if String.eqb (outcome_of (mapped_status_of wd) d) "completed"
                   then Mongo.update_one (fun o => N.eqb (Order._id o) (Call.order_id call))
                          (confirm_order t3) (orders db)
                   else orders db)
            = f <$> orders db).
  { intros B f Hf. destruct (String.eqb _ _); [|reflexivity]. now apply fmap_update_one. }
  split_and!;
    try (apply Hlogs; intros x; unfold webhook_update_data;
         destruct (String.eqb (mapped_status_of wd) "completed"); reflexivity);
    try (apply Hord; reflexivity).
  apply Hord. intros x. unfold confirm_order, OrderSet.apply. cbn. unused. lia.
Qed.

(** Document by document, an update leaves a document or rewrites it. *)
Lemma update_one_Forall2 {D : Type} (q : D -> bool) (u : D -> D) (c : list D) :
  Forall2 (fun d d' => d' = d \/ (q d = true /\ d' = u d)) c (Mongo.update_one q u c).
Proof.
  induction c as [|x c IH]; [constructor|]. cbn [Mongo.update_one].
  destruct (q x) eqn:Hq.
  - constructor; [auto|]. apply Forall_Forall2_diag, Forall_forall. auto.
  - constructor; [auto | exact IH].
Qed.

(** X26. The call service never takes a confirmation back: an order that is
    [confirmed] is still [confirmed], at the same place and with the same
    [_id], after any delivery event and after any invocation of
    [initiate_order_confirmation_call]. *)
Theorem call_service_never_unconfirms db i o :
  orders db !! i = Some o ->
  Order.confirmation_status o = "confirmed" ->
  (forall t1 t2 t3 call_id wd,
     exists o',
       orders (snd (process_call_webhook t1 t2 t3 call_id wd db)) !! i = Some o'
       /\ Order.confirmation_status o' = "confirmed"
       /\ Order._id o' = Order._id o)
  /\ (forall env order_id user language voice_id,
        exists o',
          orders (snd (fst (initiate_order_confirmation_call env order_id user language
                              voice_id db))) !! i = Some o'
          /\ Order.confirmation_status o' = "confirmed"
          /\ Order._id o' = Order._id o).
Proof.
  intros Hi Hst.
  assert (Hupd : forall q u,
            (forall x, Order.confirmation_status x = "confirmed" ->
                       Order.confirmation_status (u x) = "confirmed") ->
            (forall x, Order._id (u x) = Order._id x) ->
            exists o',
              Mongo.update_one q u (orders db) !! i = Some o'
              /\ Order.confirmation_status o' = "confirmed"
              /\ Order._id o' = Order._id o).
  { intros q u Hu Hk.
    destruct (Forall2_lookup_l _ _ _ _ _ (update_one_Forall2 q u (orders db)) Hi)
      as (o' & Ho' & [-> | [_ ->]]); exists o' || eexists; eauto. }
  split.
  - intros t1 t2 t3 call_id wd.
    destruct (Mongo.find_one (fun x => String.eqb (Call.call_id x) call_id) (call_logs db))
      as [call|] eqn:Hcall;
      [|rewrite (process_unmatched _ _ _ _ _ _ Hcall); eauto].
    destruct (duration_of wd) as [d|] eqn:Hd;
      [|rewrite (process_unparsed _ _ _ _ _ _ Hd); eauto].
    rewrite (process_matched _ _ _ _ _ _ _ _ Hcall Hd). cbn [snd orders].
    destruct (String.eqb _ _); [|eauto].
    apply Hupd; reflexivity.
  - intros env order_id user language voice_id.
    destruct (initiate_cases env order_id user language voice_id db)
      as [[e ->] | (oid & x & Hid & Hfind & Hstx & Hatt & Hfresh)]; [eauto|].
    destruct (Py.truthy_bytes (synthesized_audio env x language voice_id)) eqn:Haudio.
    + rewrite (initiate_dispatch_path _ _ _ _ _ _ _ _ Hid Hfind Hstx Hatt Hfresh Haudio).
      cbn [fst snd orders]. apply Hupd; [intros y Hy; exact Hy | reflexivity].
    + rewrite (initiate_failure_path _ _ _ _ _ _ _ _ Hid Hfind Hstx Hatt Hfresh Haudio).
      eauto.
Qed.

End Services.

(** * Evaluations *)

Example int_of_ascii_reads :
  Lib.int_of_ascii "15" = Some 15%Z
  /\ Lib.int_of_ascii "-3" = Some (-3)%Z
  /\ Lib.int_of_ascii "" = None
  /\ Lib.int_of_ascii "1.5" = None.
Proof. repeat split. Qed.

Example ObjectId_of_hex_reads :
  Lib.ObjectId_of_hex Sample.order_hex = Some 1%N
  /\ Lib.ObjectId_of_hex "0000000000000000000000FF" = Some 255%N
  /\ Lib.ObjectId_of_hex "not-an-object-id" = None
  /\ Lib.ObjectId_of_hex "00000000000000000000000g" = None.
Proof. repeat split. Qed.

(** The float operations as CPython has them. [0.14375 * 100] is the float
    below 14.375 and rounds to 14.37, where [2300 / 160] is 14.375 and rounds,
    the tie going to the even digit, to 14.38; [round(2.675, 2)] is 2.67, the
    float 2.675 being below the decimal; [round(-0.001, 2)] is [-0.0]. The
    float of a decimal literal [n / 100] is the quotient of the integers. *)
Example float_operations_read :
  Lib.int_truediv 23 160 = SpecFloat.S754_finite false 5179139571476070 (-55)
  /\ Lib.float_mul_int (Lib.int_truediv 23 160) 100
     = SpecFloat.S754_finite false 8092405580431359 (-49)
  /\ Lib.int_truediv 2300 160 = SpecFloat.S754_finite false 8092405580431360 (-49)
  /\ Lib.round2 (Lib.float_mul_int (Lib.int_truediv 23 160) 100) = Lib.int_truediv 1437 100
  /\ Lib.round2 (Lib.int_truediv 2300 160) = Lib.int_truediv 1438 100
  /\ Lib.round2 (Lib.int_truediv 2675 1000) = Lib.int_truediv 267 100
  /\ Lib.round2 (Lib.int_truediv (-1) 1000) = SpecFloat.S754_zero true
  /\ Lib.int_truediv (10 ^ 30 + 7) 3 = SpecFloat.S754_finite false 4736951571734001 46
  /\ Lib.float_of_int (2 ^ 53 + 1) = SpecFloat.S754_finite false 4503599627370496 1.
Proof. vm_compute. repeat split. Qed.

(** The script of the sample order, and its Spanish localization. *)
Example order_script_sample :
  order_script Lib.str_of_whole (Sample.order_with "pending" 0) "es"
  = "Hello Ann, this is a call from VoiceConfirm regarding your recent order #A-100. "
    +:+ nl +:+ nl
    +:+ "I'm calling to confirm your order totaling 8.0 USD including 2 Mug. "
    +:+ nl +:+ nl
    +:+ "Could you please confirm that you placed this order and that all the details are correct? "
    +:+ nl +:+ nl
    +:+ "If you confirm this order, please say 'yes' or 'confirm'. If there are any issues or you need to cancel, please say 'no' or 'cancel'."
    +:+ nl +:+ nl
    +:+ "Thank you for your time."
  /\ Py.slice_to 9 (localize_script
                      (order_script Lib.str_of_whole (Sample.order_with "pending" 0) "es")
                      "es")
     = "Hola Ann,".
Proof. split; reflexivity. Qed.

(** Items beyond the third are counted, not named. *)
Example script_items_sample :
  let item n := OrderItem.mk n 1 (1 # 1) None None in
  generate_confirmation_script Lib.str_of_whole "Ann" "A-1" (4 # 1) "USD"
    [item "Mug"; item "Pen"; item "Cap"; item "Bag"; item "Hat"] "en"
  = "Hello Ann, this is a call from VoiceConfirm regarding your recent order #A-1. "
    +:+ nl +:+ nl
    +:+ "I'm calling to confirm your order totaling 4.0 USD including 1 Mug, 1 Pen, 1 Cap and 2 more items. "
    +:+ nl +:+ nl
    +:+ "Could you please confirm that you placed this order and that all the details are correct? "
    +:+ nl +:+ nl
    +:+ "If you confirm this order, please say 'yes' or 'confirm'. If there are any issues or you need to cancel, please say 'no' or 'cancel'."
    +:+ nl +:+ nl
    +:+ "Thank you for your time.".
Proof. reflexivity. Qed.

Example mapped_status_sample :
  mapped_status_of Sample.completed_event = "completed"
  /\ mapped_status_of Sample.busy_event = "failed"
  /\ mapped_status_of {[ "CallStatus" := "canceled" ]} = "cancelled"
  /\ mapped_status_of {[ "CallStatus" := "ringing" ]} = "failed"
  /\ mapped_status_of ∅ = "failed".
Proof. repeat split. Qed.

(** The dispatcher's answer when Twilio is configured, and when it is not. *)
Example make_voice_call_sample :
  fst (make_voice_call Sample.configured "+15550001" [Byte.x01]
         "123e4567-e89b-12d3-a456-426614174000")
  = {[ "success" := VBool true;
       "call_sid" := VStr "CA123e4567-e89b-12d3-a456-42661417";
       "status" := VStr "initiated";
       "to" := VStr "+15550001";
       "from" := VStr "+1234567890" ]}
  /\ fst (make_voice_call (mkSettings None None None None) "+15550001" [Byte.x01] "x")
     = {[ "success" := VBool false; "error" := VStr "Twilio not configured" ]}.
Proof. split; reflexivity. Qed.

(** * The claims on sample data *)






(** C7 on an event whose call identifier no record carries. *)
Lemma webhook_unknown_call_witness :
  process_call_webhook Lib.int_of_ascii 4001 4002 4003 "CA-unknown" Sample.unknown_event
    Sample.db_in_progress = (false, Sample.db_in_progress)
  /\ twilio_webhook Lib.int_of_ascii 4001 4002 4003 Sample.unknown_event Sample.db_in_progress
     = (Raise (mkHTTPException 400 "Failed to process webhook"), Sample.db_in_progress).
Proof.
  destruct (webhook_unknown_call Lib.int_of_ascii 4001 4002 4003 "CA-unknown"
              Sample.unknown_event Sample.db_in_progress eq_refl) as [H1 H2].
  split; [exact H1|]. apply H2; [reflexivity | discriminate].
Defined.

(** C7 as stated fails: for that event the route does not answer success. *)
Lemma twilio_webhook_rejects_unknown_call :
  Mongo.find_one (fun x => String.eqb (Call.call_id x) "CA-unknown")
    (call_logs Sample.db_in_progress) = None
  /\ ~ exists body,
         fst (twilio_webhook Lib.int_of_ascii 4001 4002 4003 Sample.unknown_event
                Sample.db_in_progress) = Return body.
Proof.
  split; [reflexivity|]. intros [body H]. vm_compute in H. discriminate H.
Qed.





(** C8 on two calls, one completed in ten seconds and one with no
    duration, and on 160 calls of which 23 are completed in 100 seconds
    each: there the rate, from [23 / 160 * 100], is 14.37 and the average,
    from [2300 / 160], is 14.38. *)
Lemma call_stats_quantities_witness :
  (let stats :=
     fst (get_call_stats Lib.int_truediv Lib.float_mul_int Lib.round2 Sample.merchant
            Sample.db_two_calls) in
   CallStats.total_calls stats = 2%Z
   /\ CallStats.success_rate stats = Lib.round2 (Lib.float_mul_int (Lib.int_truediv 1 2) 100)
   /\ CallStats.average_duration stats = Lib.round2 (Lib.int_truediv 10 2))
  /\ (let stats :=
        fst (get_call_stats Lib.int_truediv Lib.float_mul_int Lib.round2 Sample.merchant
               Sample.db_many_calls) in
      CallStats.total_calls stats = 160%Z
      /\ CallStats.success_rate stats = Lib.int_truediv 1437 100
      /\ CallStats.average_duration stats = Lib.int_truediv 1438 100).
Proof.
  split.
  - destruct (call_stats_quantities Lib.int_truediv Lib.float_mul_int Lib.round2
                Sample.merchant Sample.db_two_calls)
      as (_ & Htot & _ & _ & Hrates & _).
    destruct Hrates as [Hsr Havg]; [discriminate|].
    repeat split; assumption.
  - destruct (call_stats_quantities Lib.int_truediv Lib.float_mul_int Lib.round2
                Sample.merchant Sample.db_many_calls)
      as (_ & Htot & _ & _ & Hrates & _).
    destruct Hrates as [Hsr Havg]; [discriminate|].
    split_and!.
    + rewrite Htot. reflexivity.
    + rewrite Hsr. vm_compute. reflexivity.
    + rewrite Havg. vm_compute. reflexivity.
Defined.

(** C8 as stated fails: on those two calls the success rate is 50.0, not
    0.5, and the average duration is 5.0, the sum over both calls, not the
    10.0 of the one call that has a duration. *)
Lemma call_stats_differ_from_spec :
  let calls := List.filter (visible_call Sample.merchant) (call_logs Sample.db_two_calls) in
  let stats :=
    fst (get_call_stats Lib.int_truediv Lib.float_mul_int Lib.round2 Sample.merchant
           Sample.db_two_calls) in
  CallStats.average_duration stats = Lib.float_of_int 5
  /\ spec_average_duration Lib.int_truediv calls = Lib.float_of_int 10
  /\ CallStats.average_duration stats <> spec_average_duration Lib.int_truediv calls
  /\ CallStats.success_rate stats = Lib.float_of_int 50
  /\ spec_success_rate Lib.int_truediv calls = Lib.int_truediv 1 2
  /\ CallStats.success_rate stats <> spec_success_rate Lib.int_truediv calls.
Proof.
  vm_compute. repeat split; discriminate.
Qed.

(** The statistics of 160 calls of which 23 are completed, in 100 seconds
    each: the rate comes from [23 / 160 * 100] and is 14.37, the average
    from [2300 / 160] and is 14.38. *)
Example call_stats_many_calls :
  let stats :=
    fst (get_call_stats Lib.int_truediv Lib.float_mul_int Lib.round2 Sample.merchant
           Sample.db_many_calls) in
  CallStats.total_calls stats = 160%Z
  /\ CallStats.successful_calls stats = 23%Z
  /\ CallStats.failed_calls stats = 137%Z
  /\ CallStats.total_duration stats = 2300%Z
  /\ CallStats.success_rate stats = Lib.int_truediv 1437 100
  /\ CallStats.average_duration stats = Lib.int_truediv 1438 100
  /\ CallStats.success_rate stats <> CallStats.average_duration stats.
Proof. vm_compute. repeat split; discriminate. Qed.

(** The statistics of 160 orders of which 23 are confirmed, after 100
    attempts each: the rate is 14.37, the average 14.38. *)
Example order_stats_many_orders :
  let stats :=
    fst (get_order_stats Lib.int_truediv Lib.float_mul_int Lib.round2 Sample.merchant
           Sample.db_many_orders) in
  OrderStats.total_orders stats = 160%Z
  /\ OrderStats.confirmed_orders stats = 23%Z
  /\ OrderStats.pending_orders stats = 137%Z
  /\ OrderStats.confirmation_rate stats = Lib.int_truediv 1437 100
  /\ OrderStats.average_call_attempts stats = Lib.int_truediv 1438 100.
Proof. vm_compute. repeat split. Qed.

(** * Further facts on sample data *)

(** A batch that names one external id twice: the first order is imported,
    the second is reported. *)
Example bulk_import_sample :
  fst (route_bulk_import_orders Lib.str_of_http
         [(Sample.new_order "A-200", mkCreateEnv 2 6000 6001);
          (Sample.new_order "A-200", mkCreateEnv 3 6002 6003)]
         Sample.merchant Sample.db_pending)
  = {| successful_imports := 1;
       failed_imports := 1;
       errors := ["Order A-200: 400: Order with ID A-200 already exists"] |}.
Proof. reflexivity. Qed.

(** The two calls of the sample, newest first, and the page after the
    first. *)
Example get_calls_sample :
  let filters := CallFilters.mk None None None None None None in
  Call.call_id <$> fst (get_calls Lib.ObjectId_of_hex Sample.merchant filters 0 50
                          Sample.db_two_calls)
  = ["call-1"; "call-2"]
  /\ Call.call_id <$> fst (get_calls Lib.ObjectId_of_hex Sample.merchant filters 1 50
                             Sample.db_two_calls)
     = ["call-2"]
  /\ fst (get_calls Lib.ObjectId_of_hex Sample.merchant
            (CallFilters.mk None None None None None (Some "not-an-object-id")) 0 50
            Sample.db_two_calls)
     = [].
Proof. repeat split. Qed.

(** X2 on the pending order with one attempt left: after the dispatch it has
    three attempts of three. *)
Lemma initiate_within_budget_witness :
  Forall (fun o => (Order.call_attempts o <= Order.max_call_attempts o)%Z)
    (orders (snd (fst (initiate_order_confirmation_call Lib.ObjectId_of_hex
                         Lib.str_of_whole Sample.configured
                         (Sample.env_with 50 (Some [Byte.x01])) Sample.order_hex
                         Sample.merchant "en" None Sample.db_last_attempt)))).
Proof.
  apply initiate_within_budget.
  - apply NoDup_singleton.
  - apply Forall_singleton. cbn. lia.
Defined.



(** X5 on the pending order when the voice provider has no key. *)
Lemma no_voice_key_no_call_witness :
  exists e db',
    initiate_order_confirmation_call Lib.ObjectId_of_hex Lib.str_of_whole
      Sample.no_voice_key (Sample.env_with 50 (Some [Byte.x01])) Sample.order_hex
      Sample.merchant "en" None Sample.db_pending
    = (Raise e, db', [])
    /\ orders db' = orders Sample.db_pending.
Proof.
  destruct (no_voice_key_no_call Lib.ObjectId_of_hex Lib.str_of_whole Sample.no_voice_key
              (Sample.env_with 50 (Some [Byte.x01])) Sample.order_hex Sample.merchant "en"
              None Sample.db_pending eq_refl)
    as (e & db' & H1 & H2 & _).
  exists e, db'. split; assumption.
Defined.

(** X6 on a call in progress: the event that carries the identifier the
    dispatcher reported for it is refused. *)
Lemma reported_sid_matches_no_record_witness :
  fst (make_voice_call Sample.configured "+15550001" [Byte.x01]
         "123e4567-e89b-12d3-a456-426614174000") !! "call_sid"
  = Some (VStr "CA123e4567-e89b-12d3-a456-42661417")
  /\ twilio_webhook Lib.int_of_ascii 4001 4002 4003 Sample.reported_sid_event
       Sample.db_uuid_call
     = (Raise (mkHTTPException 400 "Failed to process webhook"), Sample.db_uuid_call).
Proof.
  split; [reflexivity|].
  apply (reported_sid_matches_no_record Lib.int_of_ascii Sample.configured 4001 4002 4003
           "+15550001" [Byte.x01] "123e4567-e89b-12d3-a456-426614174000"
           "CA123e4567-e89b-12d3-a456-42661417" Sample.reported_sid_event
           Sample.db_uuid_call);
    [apply Forall_singleton; reflexivity | reflexivity | reflexivity].
Defined.



(** X11 on the two calls of the sample: both are in English, none has an
    outcome, one has failed. *)
Lemma call_stats_breakdown_witness :
  let stats :=
    fst (get_call_stats Lib.int_truediv Lib.float_mul_int Lib.round2 Sample.merchant
           Sample.db_two_calls) in
  CallStats.calls_by_language stats !! "en" = Some 2%Z
  /\ CallStats.calls_by_outcome stats !! "en" = None
  /\ CallStats.failed_calls stats = 1%Z.
Proof.
  destruct (call_stats_breakdown Lib.int_truediv Lib.float_mul_int Lib.round2
              Sample.merchant Sample.db_two_calls "en")
    as (H1 & H2 & _ & _ & H5); [discriminate|].
  split_and!.
  - rewrite H2. reflexivity.
  - rewrite H1. reflexivity.
  - rewrite H5. reflexivity.
Defined.

(** X12 on a creation next to the pending order. *)
Lemma create_order_keeps_keys_unique_witness :
  NoDup (Order._id
           <$> orders (snd (create_order 2 6000 6001 (Sample.new_order "A-200")
                              Sample.db_pending)))
  /\ length (orders (snd (create_order 2 6000 6001 (Sample.new_order "A-200")
                            Sample.db_pending))) = 2%nat.
Proof.
  destruct (create_order_keeps_keys_unique 2 6000 6001 (Sample.new_order "A-200")
              Sample.db_pending)
    as (H1 & _ & _); [apply NoDup_singleton | apply NoDup_singleton |].
  split; [exact H1 | reflexivity].
Defined.



(** X16 on a batch that names one external id twice. *)
Lemma bulk_import_route_keeps_keys_unique_witness :
  NoDup ((fun o => (Order.order_id o, Order.user_id o))
           <$> orders (snd (route_bulk_import_orders Lib.str_of_http
                              [(Sample.new_order "A-200", mkCreateEnv 2 6000 6001);
                               (Sample.new_order "A-200", mkCreateEnv 3 6002 6003)]
                              Sample.merchant Sample.db_pending)))
  /\ length (orders (snd (route_bulk_import_orders Lib.str_of_http
                            [(Sample.new_order "A-200", mkCreateEnv 2 6000 6001);
                             (Sample.new_order "A-200", mkCreateEnv 3 6002 6003)]
                            Sample.merchant Sample.db_pending))) = 2%nat.
Proof.
  destruct (bulk_import_route_keeps_keys_unique Lib.str_of_http
              [(Sample.new_order "A-200", mkCreateEnv 2 6000 6001);
               (Sample.new_order "A-200", mkCreateEnv 3 6002 6003)]
              Sample.merchant Sample.db_pending)
    as (_ & H2 & _); [apply NoDup_singleton | apply NoDup_singleton |].
  split; [exact H2 | reflexivity].
Defined.

(** X19 on the merchant next to another user: deleting its own order, and
    trying to update the other's, leave the other's order as it was. *)
Lemma writes_leave_other_users_orders_witness :
  others_orders Sample.merchant
    (orders (snd (delete_order Lib.ObjectId_of_hex Sample.order_hex Sample.merchant
                    Sample.db_two_users)))
  = [Sample.foreign_order]
  /\ others_orders Sample.merchant
       (orders (snd (update_order Lib.ObjectId_of_hex 5001 5002 Sample.second_hex
                       Sample.confirm_update Sample.merchant Sample.db_two_users)))
     = [Sample.foreign_order].
Proof.
  destruct (writes_leave_other_users_orders Lib.ObjectId_of_hex Lib.str_of_whole
              Sample.configured Sample.merchant Sample.db_two_users)
    as (H1 & H2 & _ & _); [discriminate|].
  split.
  - rewrite H2. reflexivity.
  - rewrite H1. reflexivity.
Defined.

(** X26 on a confirmed order: a late [busy] event for its call leaves it
    confirmed. *)
Lemma call_service_never_unconfirms_witness :
  exists o',
    orders (snd (process_call_webhook Lib.int_of_ascii 4001 4002 4003 "call-1"
                   Sample.busy_event Sample.db_confirmed)) !! 0%nat = Some o'
    /\ Order.confirmation_status o' = "confirmed".
Proof.
  destruct (proj1 (call_service_never_unconfirms Lib.int_of_ascii Lib.ObjectId_of_hex
                     Lib.str_of_whole Sample.configured Sample.db_confirmed 0%nat
                     (Sample.order_with "confirmed" 1) eq_refl eq_refl)
              4001%Z 4002%Z 4003%Z "call-1" Sample.busy_event)
    as (o' & H1 & H2 & _).
  exists o'. split; assumption.
Defined.

(** X23 on two lists of four items that differ in their prices and in their
    fourth item, asked in two languages. *)
Lemma script_names_three_items_witness :
  generate_confirmation_script Lib.str_of_whole "Ann" "A-1" (4 # 1) "USD"
    [OrderItem.mk "Mug" 1 (1 # 1) None None; OrderItem.mk "Pen" 2 (1 # 1) None None;
     OrderItem.mk "Cap" 1 (1 # 1) None None; OrderItem.mk "Bag" 1 (1 # 1) None None] "en"
  = generate_confirmation_script Lib.str_of_whole "Ann" "A-1" (4 # 1) "USD"
      [OrderItem.mk "Mug" 1 (2 # 1) None None; OrderItem.mk "Pen" 2 (3 # 1) (Some "P-1") None;
       OrderItem.mk "Cap" 1 (1 # 2) None None; OrderItem.mk "Hat" 5 (9 # 1) None None] "es".
Proof.
  apply script_names_three_items; reflexivity.
Defined.

(** X17 on 160 orders of which 23 are confirmed, after 100 attempts each. *)
Lemma order_stats_quantities_witness :
  let stats :=
    fst (get_order_stats Lib.int_truediv Lib.float_mul_int Lib.round2 Sample.merchant
           Sample.db_many_orders) in
  OrderStats.total_orders stats = 160%Z
  /\ OrderStats.confirmation_rate stats = Lib.int_truediv 1437 100
  /\ OrderStats.average_call_attempts stats = Lib.int_truediv 1438 100.
Proof.
  destruct (order_stats_quantities Lib.int_truediv Lib.float_mul_int Lib.round2
              Sample.merchant Sample.db_many_orders)
    as (_ & Htot & _ & _ & _ & _ & _ & Hrates & _).
  destruct Hrates as [Hrate Havg]; [discriminate|].
  split_and!.
  - rewrite Htot. reflexivity.
  - rewrite Hrate. vm_compute. reflexivity.
  - rewrite Havg. vm_compute. reflexivity.
Defined.
